(** * VISCA over raw TCP: the [TcpCamera] client

    A shallow embedding of [visca_over_ip/tcp_camera.py] and
    [visca_over_ip/exceptions.py], and the properties of the command
    codec, of the reply classification and of the connection life cycle.

    Conventions.
    - A Python [int] is a [Z]; a [bytes] object is a list of [Z], every
      element in [0, 255]; a [str] is a [string] of ASCII characters.
    - A Python [float] is the rational it denotes (every finite float is
      one); a product too large for a finite float is an infinity, see
      [Py.finite] and [zoom_to].
    - A method is a function from the state of the camera object to an
      outcome (a value or a raised exception) and the state it leaves. *)

From Stdlib Require Import ZArith String Ascii List QArith Qround Qabs Lia Bool.
From stdpp Require Import base option list gmap strings pretty.

Open Scope string_scope.
Open Scope Z_scope.

Abbreviation bytes := (list Z).

(** ** Python built-ins used by the client *)

Module Py.

(** The digit that [format(n, 'x')] prints for a value below 16. *)
Definition hex_digit (n : Z) : ascii :=
  match n with
  | 0 => "0" | 1 => "1" | 2 => "2" | 3 => "3"
  | 4 => "4" | 5 => "5" | 6 => "6" | 7 => "7"
  | 8 => "8" | 9 => "9" | 10 => "a" | 11 => "b"
  | 12 => "c" | 13 => "d" | 14 => "e" | _ => "f"
  end%char.

(** The hexadecimal digits of [n >= 0], most significant first.  The
    fuel counts digits; [format_x] passes more than [n] has. *)
Fixpoint hex_digits (fuel : nat) (n : Z) (acc : string) : string :=
  match fuel with
  | O => acc
  | S fuel' =>
      let acc' := String (hex_digit (n mod 16)) acc in
      if n <? 16 then acc' else hex_digits fuel' (n / 16) acc'
  end.

Definition hex_magnitude (n : Z) : string :=
  let m := Z.abs n in hex_digits (S (Z.to_nat (Z.log2 m))) m "".

Fixpoint zeros (k : nat) : string :=
  match k with O => "" | S k' => String "0" (zeros k') end.

(** [format(n, '0<width>x')]: sign first, then zeros up to the width,
    then the digits.  Width 0 is the plain [format(n, 'x')]. *)
Definition format_0x (width : nat) (n : Z) : string :=
  let sign := if n <? 0 then "-" else "" in
  let body := hex_magnitude n in
  sign +:+ zeros (width - String.length sign - String.length body) +:+ body.

Definition format_x : Z -> string := format_0x 0.
Definition format_02x : Z -> string := format_0x 2.
Definition format_04x : Z -> string := format_0x 4.

(** [sep.join(parts)] *)
Fixpoint join (sep : string) (parts : list string) : string :=
  match parts with
  | [] => ""
  | [p] => p
  | p :: rest => p +:+ sep +:+ join sep rest
  end.

(** [s.replace(' ', '')] *)
Fixpoint remove_spaces (s : string) : string :=
  match s with
  | EmptyString => EmptyString
  | String c s' =>
      if Ascii.eqb c " " then remove_spaces s' else String c (remove_spaces s')
  end.

(** The characters of a string, as the one-character strings that
    iterating over a [str] yields. *)
Fixpoint chars (s : string) : list string :=
  match s with
  | EmptyString => []
  | String c s' => String c "" :: chars s'
  end.

(** [c.lower()] and [s.lower()] on ASCII text. *)
Definition lower_char (c : ascii) : ascii :=
  let n := nat_of_ascii c in
  if (65 <=? n)%nat && (n <=? 90)%nat then ascii_of_nat (n + 32) else c.

Fixpoint lower (s : string) : string :=
  match s with
  | EmptyString => EmptyString
  | String c s' => String (lower_char c) (lower s')
  end.

(** Value of a hexadecimal digit, by its character code: ['0'..'9'],
    ['a'..'f'] or ['A'..'F']; [None] for any other character. *)
Definition hex_val (c : ascii) : option Z :=
  let code := Z.of_nat (nat_of_ascii c) in
  if (48 <=? code) && (code <=? 57) then Some (code - 48)
  else if (97 <=? code) && (code <=? 102) then Some (code - 97 + 10)
  else if (65 <=? code) && (code <=? 70) then Some (code - 65 + 10)
  else None.

(** ASCII white space, which [bytes.fromhex] skips between bytes. *)
Definition is_space (c : ascii) : bool :=
  let n := nat_of_ascii c in
  (n =? 32)%nat || ((9 <=? n)%nat && (n <=? 13)%nat).

(** [bytes.fromhex(s)], reading [s] from position [pos] on: pairs of
    hexadecimal digits, white space allowed between pairs.  The error
    is the position of the offending character. *)
Fixpoint fromhex_from (pos : Z) (s : string) : Z + bytes :=
  match s with
  | EmptyString => inr []
  | String c s' =>
      if is_space c then fromhex_from (pos + 1) s'
      else
        match hex_val c with
        | None => inl pos
        | Some top =>
            match s' with
            | EmptyString => inl (pos + 1)
            | String d s'' =>
                match hex_val d with
                | None => inl (pos + 1)
                | Some bot =>
                    match fromhex_from (pos + 2) s'' with
                    | inl p => inl p
                    | inr rest => inr (top * 16 + bot :: rest)
                    end
                end
            end
        end
  end.

Definition fromhex : string -> Z + bytes := fromhex_from 0.

(** [n.to_bytes(2, 'big', signed=True)]; [None] is [OverflowError]. *)
Definition to_bytes_2_big_signed (n : Z) : option bytes :=
  if (-32768 <=? n) && (n <=? 32767)
  then let u := n mod 65536 in Some [u / 256; u mod 256]
  else None.

(** [l[i]] with Python's negative indices; [None] is [IndexError]. *)
Definition index {A} (l : list A) (i : Z) : option A :=
  let n := Z.of_nat (length l) in
  let j := if i <? 0 then i + n else i in
  if (0 <=? j) && (j <? n) then l !! Z.to_nat j else None.

(** [l[start:stop]] with Python's negative indices and clamping. *)
Definition slice {A} (l : list A) (start stop : Z) : list A :=
  let n := Z.of_nat (length l) in
  let norm i := Z.min n (Z.max 0 (if i <? 0 then i + n else i)) in
  let a := norm start in
  let b := norm stop in
  take (Z.to_nat (b - a)) (drop (Z.to_nat a) l).

(** [round(x)] of a float: to the nearest integer, ties to even. *)
Definition round (x : Q) : Z :=
  let f := Qfloor x in
  match Qcompare (x - inject_Z f) (1 # 2) with
  | Lt => f
  | Gt => f + 1
  | Eq => if Z.even f then f else f + 1
  end.

(** The least magnitude that rounds to an infinity instead of a finite
    float: half a unit in the last place above the largest float. *)
Definition float_limit : Z := 2 ^ 1024 - 2 ^ 970.

(** The float an arithmetic result [x] is stored as: [x] itself when it
    is within the finite floats, [None] when it is an infinity.  (The
    one arithmetic result of the client is a float times a power of two,
    which a finite float holds exactly.) *)
Definition finite (x : Q) : option Q :=
  if Qle_bool (inject_Z float_limit) (Qabs x) then None else Some x.

End Py.

(** ** Exceptions *)

(** What a call may raise.  The first three are the ones the client
    raises itself; the others come out of the built-ins and of the
    socket. *)
Inductive exn : Type :=
| ValueError (msg : string)
| ConnectionError (msg : string)
| ViscaException (status_code : Z) (description : string)
| OverflowError (msg : string)
| IndexError (msg : string)
| AttributeError (msg : string)
| BlockingIOError
| OSError (msg : string).

(** The argument handed to [ViscaException(...)]: [isinstance] tells
    [bytes] apart from anything else. *)
Inductive response_body : Type :=
| Bytes (b : bytes)
| NotBytes.

Definition descriptions : gmap Z string :=
  <[1 := "Message length error"]>
  (<[2 := "Syntax error"]>
  (<[3 := "Command buffer full"]>
  (<[4 := "Command cancelled"]>
  (<[5 := "No socket"]>
  (<[0x41 := "Command not executable"]>
  (<[0x76 := "Position limit exceeded or command blocked"]> ∅)))))).

(** [ViscaException.__init__]: the two attributes it sets. *)
Definition ViscaException_init (body : response_body) : exn :=
  let status_code :=
    match body with
    | Bytes b =>
        if 3 <=? Z.of_nat (length b) then default (-1) (Py.index b 2) else -1
    | NotBytes => -1
    end in
  let description :=
    default ("Unknown error code 0x" +:+ Py.format_02x status_code)
            (descriptions !! status_code) in
  ViscaException status_code description.

(** The text [RuntimeError.__init__] receives. *)
Definition exn_message (e : exn) : string :=
  match e with
  | ViscaException _ description => "Error when executing command: " +:+ description
  | ValueError msg | ConnectionError msg | OverflowError msg
  | IndexError msg | AttributeError msg | OSError msg => msg
  | BlockingIOError => ""
  end.

(** The literals [b"Invalid pan/tilt response"] and
    [b"Invalid zoom response"]. *)
Definition bytes_of_string (s : string) : bytes :=
  map (fun c => Z.of_nat (nat_of_ascii c)) (list_ascii_of_string s).

(** ** The socket *)

(** What one call of [recv] does: hand over bytes (none at all when the
    peer has closed) or raise. *)
Inductive recv_outcome : Type :=
| RecvData (data : bytes)
| RecvBlockingIOError
| RecvTimeout
| RecvOSError (msg : string).

(** A socket object: the outcomes of its coming [recv] calls, in order,
    the arguments of the [send] calls made so far, oldest first, and its
    mode. *)
Record socket : Type := {
  sk_incoming : list recv_outcome;
  sk_sent : list bytes;
  sk_send_raises : option string;
  sk_close_raises : bool;
  sk_blocking : bool;
  sk_timeout : option Q;
  sk_closed : bool
}.

Definition set_incoming (l : list recv_outcome) (s : socket) : socket :=
  {| sk_incoming := l; sk_sent := sk_sent s;
     sk_send_raises := sk_send_raises s; sk_close_raises := sk_close_raises s;
     sk_blocking := sk_blocking s; sk_timeout := sk_timeout s;
     sk_closed := sk_closed s |}.

(** [sock.setblocking(flag)]: [False] is a zero timeout, [True] none. *)
Definition setblocking (flag : bool) (s : socket) : socket :=
  {| sk_incoming := sk_incoming s; sk_sent := sk_sent s;
     sk_send_raises := sk_send_raises s; sk_close_raises := sk_close_raises s;
     sk_blocking := flag; sk_timeout := if flag then None else Some 0%Q;
     sk_closed := sk_closed s |}.

(** [sock.settimeout(t)] with a positive [t]: blocking, with a limit. *)
Definition settimeout (t : Q) (s : socket) : socket :=
  {| sk_incoming := sk_incoming s; sk_sent := sk_sent s;
     sk_send_raises := sk_send_raises s; sk_close_raises := sk_close_raises s;
     sk_blocking := true; sk_timeout := Some t;
     sk_closed := sk_closed s |}.

(** [sock.recv(1024)].  When nothing more is ever to arrive, a
    non-blocking socket raises [BlockingIOError] and a blocking one times
    out. *)
Definition recv (s : socket) : recv_outcome * socket :=
  match sk_incoming s with
  | [] => (if sk_blocking s then RecvTimeout else RecvBlockingIOError, s)
  | o :: rest => (o, set_incoming rest s)
  end.

(** [sock.send(data)]: [None] when it went through, the error text when
    it raised. *)
Definition send (data : bytes) (s : socket) : option string * socket :=
  match sk_send_raises s with
  | Some msg => (Some msg, s)
  | None =>
      (None,
       {| sk_incoming := sk_incoming s; sk_sent := sk_sent s ++ [data];
          sk_send_raises := None; sk_close_raises := sk_close_raises s;
          sk_blocking := sk_blocking s; sk_timeout := sk_timeout s;
          sk_closed := sk_closed s |})
  end.

(** [sock.close()]: [true] when it raised. *)
Definition sock_close (s : socket) : bool * socket :=
  (sk_close_raises s,
   {| sk_incoming := sk_incoming s; sk_sent := sk_sent s;
      sk_send_raises := sk_send_raises s; sk_close_raises := sk_close_raises s;
      sk_blocking := sk_blocking s; sk_timeout := sk_timeout s;
      sk_closed := true |}).

(** ** The camera object *)

Record TcpCamera : Type := {
  _ip : string;
  _port : Z;
  _timeout : Q;
  _sock : option socket
}.

(** [TcpCamera(ip, port, timeout)] *)
Definition __init__ (ip : string) (port : Z) (timeout : Q) : TcpCamera :=
  {| _ip := ip; _port := port; _timeout := timeout; _sock := None |}.

(** [self._sock = v] *)
Definition set_sock (v : option socket) (self : TcpCamera) : TcpCamera :=
  {| _ip := _ip self; _port := _port self; _timeout := _timeout self; _sock := v |}.

(** How a call ends. *)
Inductive outcome (A : Type) : Type :=
| Return (a : A)
| Raise (e : exn).
Arguments Return {A} a.
Arguments Raise {A} e.

(** A method: from the object's state to an outcome and the state left. *)
Definition M (A : Type) : Type := TcpCamera -> outcome A * TcpCamera.

Definition ret {A} (a : A) : M A := fun self => (Return a, self).
Definition raise {A} (e : exn) : M A := fun self => (Raise e, self).
Definition bind {A B} (m : M A) (k : A -> M B) : M B :=
  fun self =>
    match m self with
    | (Return a, self') => k a self'
    | (Raise e, self') => (Raise e, self')
    end.

Notation "'do' x <- m ; k" := (bind m (fun x => k))
  (at level 10, x name, m at level 100, k at level 200).
Notation "m ;; k" := (bind m (fun _ => k))
  (at level 100, k at level 200, right associativity).

(** What the network does with a connection attempt: it hands over a
    connected socket, or some step of the attempt raises. *)
Inductive network : Type :=
| Accepts (s : socket)
| Refuses (e : string).

Definition connect (net : network) : M bool :=
  fun self =>
    match net with
    | Accepts s => (Return true, set_sock (Some (settimeout (_timeout self) s)) self)
    | Refuses e =>
        (Raise (ConnectionError
                  ("Failed to connect to " +:+ _ip self +:+ ":"
                   +:+ pretty (_port self) +:+ ": " +:+ e)),
         set_sock None self)
    end.

Definition close_connection : M unit :=
  fun self =>
    match _sock self with
    | Some s =>
        (* try: close()  except: pass *)
        let '(_, _) := sock_close s in
        (Return tt, set_sock None self)
    | None => (Return tt, self)
    end.

(** The loop of [_flush_input]: [recv] until it hands over nothing or
    raises; what is left are the outcomes not consumed. *)
Fixpoint drain (incoming : list recv_outcome) : list recv_outcome :=
  match incoming with
  | [] => []
  | RecvData [] :: rest => rest
  | RecvData (_ :: _) :: rest => drain rest
  | (RecvBlockingIOError | RecvTimeout | RecvOSError _) :: rest => rest
  end.

Definition _flush_input : M unit :=
  fun self =>
    match _sock self with
    | None => (Return tt, self)
    | Some s =>
        let s1 := setblocking false s in
        let s2 := set_incoming (drain (sk_incoming s1)) s1 in
        let s3 := settimeout (_timeout self) (setblocking true s2) in
        (Return tt, set_sock (Some s3) self)
    end.

(** [self._sock.send(command_bytes)] *)
Definition sock_send (data : bytes) : M unit :=
  fun self =>
    match _sock self with
    | None => (Raise (AttributeError "'NoneType' object has no attribute 'send'"), self)
    | Some s =>
        match send data s with
        | (None, s') => (Return tt, set_sock (Some s') self)
        | (Some msg, s') => (Raise (OSError msg), set_sock (Some s') self)
        end
    end.

(** [self._sock.recv(1024)] *)
Definition sock_recv : M recv_outcome :=
  fun self =>
    match _sock self with
    | None => (Raise (AttributeError "'NoneType' object has no attribute 'recv'"), self)
    | Some s => let '(o, s') := recv s in (Return o, set_sock (Some s') self)
    end.

Definition _send_command (command_hex : string) (query : bool) : M (option bytes) :=
  fun self =>
    match _sock self with
    | None => (Raise (ConnectionError "Not connected. Call connect() first."), self)
    | Some _ =>
        (_flush_input ;;
         let preamble := if query then "81 09" else "81 01" in
         let full_command := preamble +:+ " " +:+ command_hex +:+ " FF" in
         match Py.fromhex (Py.remove_spaces full_command) with
         | inl pos =>
             raise (ValueError
                      ("non-hexadecimal number found in fromhex() arg at position "
                       +:+ pretty pos))
         | inr command_bytes =>
             sock_send command_bytes ;;
             (* time.sleep(0.1) *)
             do received <- sock_recv ;
             match received with
             | RecvTimeout => ret None
             | RecvBlockingIOError => raise BlockingIOError
             | RecvOSError msg => raise (OSError msg)
             | RecvData [] => ret None
             | RecvData response =>
                 if (3 <=? Z.of_nat (length response))
                    && match Py.index response 1 with
                       | Some b => Z.land b 0xF0 =? 0x60
                       | None => false
                       end
                 then raise (ViscaException_init (Bytes response))
                 else if query && (3 <? Z.of_nat (length response))
                 then ret (Some (Py.slice response 2 (-1)))
                 else ret (Some response)
             end
         end) self
    end.

(** *** Pan and tilt *)

(** The local function [encode_position] of [pantilt]; [None] is the
    [OverflowError] of [to_bytes]. *)
Definition encode_position (pos : Z) : option string :=
  pos_bytes ← Py.to_bytes_2_big_signed pos;
  Some (Py.join " "
          (map (fun b => "0" +:+ Py.format_x (Z.shiftr b 4)
                         +:+ " 0" +:+ Py.format_x (Z.land b 0xf))
               pos_bytes)).

(** The local function [direction] of [pantilt]. *)
Definition direction (speed : Z) : string :=
  if speed <? 0 then "01"
  else if 0 <? speed then "02"
  else "03".

Definition pantilt (pan_speed tilt_speed : Z)
    (pan_position tilt_position : option Z) (relative : bool) : M unit :=
  if (24 <? Z.abs pan_speed) || (24 <? Z.abs tilt_speed)
  then raise (ValueError "Speeds must be between -24 and 24")
  else
    let pan_speed_hex := Py.format_02x (Z.abs pan_speed) in
    let tilt_speed_hex := Py.format_02x (Z.abs tilt_speed) in
    match pan_position, tilt_position with
    | Some pan_pos, Some tilt_pos =>
        let mode := if relative then "03" else "02" in
        match encode_position pan_pos, encode_position tilt_pos with
        | Some pan_enc, Some tilt_enc =>
            let cmd := "06 " +:+ mode +:+ " " +:+ pan_speed_hex +:+ " "
                       +:+ tilt_speed_hex +:+ " " +:+ pan_enc +:+ " " +:+ tilt_enc in
            _send_command cmd false ;; ret tt
        | _, _ => raise (OverflowError "int too big to convert")
        end
    | _, _ =>
        let cmd := "06 01 " +:+ pan_speed_hex +:+ " " +:+ tilt_speed_hex +:+ " "
                   +:+ direction pan_speed +:+ " " +:+ direction tilt_speed in
        _send_command cmd false ;; ret tt
    end.

Definition pantilt_stop : M unit := pantilt 0 0 None None false.

Definition pantilt_home : M unit := _send_command "06 04" false ;; ret tt.

Definition pantilt_reset : M unit := _send_command "06 05" false ;; ret tt.

(** [not response]: nothing came back, or no bytes. *)
Definition falsy (response : option bytes) : bool :=
  match response with
  | None | Some [] => true
  | Some (_ :: _) => false
  end.

(** [len(response)] once [response] is known to be a [bytes]. *)
Definition len (response : option bytes) : Z :=
  match response with
  | None => 0
  | Some b => Z.of_nat (length b)
  end.

(** The four nibbles of a position, most significant first. *)
Definition nibbles_value (data : bytes) : option Z :=
  d0 ← Py.index data 0;
  d1 ← Py.index data 1;
  d2 ← Py.index data 2;
  d3 ← Py.index data 3;
  Some (Z.lor (Z.lor (Z.lor (Z.shiftl (Z.land d0 0x0F) 12)
                            (Z.shiftl (Z.land d1 0x0F) 8))
                     (Z.shiftl (Z.land d2 0x0F) 4))
              (Z.land d3 0x0F)).

(** The local function [decode_position] of [get_pantilt_position];
    [None] is an [IndexError]. *)
Definition decode_position (data : bytes) : option Z :=
  value ← nibbles_value data;
  Some (if 0x8000 <=? value then value - 0x10000 else value).

Definition get_pantilt_position : M (Z * Z) :=
  do response <- _send_command "06 12" true ;
  if falsy response || (len response <? 8)
  then raise (ViscaException_init (Bytes (bytes_of_string "Invalid pan/tilt response")))
  else
    let data := default [] response in
    match decode_position (Py.slice data 0 4), decode_position (Py.slice data 4 8) with
    | Some pan, Some tilt => ret (pan, tilt)
    | _, _ => raise (IndexError "index out of range")
    end.

(** *** Zoom *)

Definition zoom (speed : Z) : M unit :=
  if 7 <? Z.abs speed
  then raise (ValueError "Zoom speed must be between -7 and 7")
  else
    let speed_hex := Py.format_x (Z.abs speed) in
    let direction :=
      if speed =? 0 then "0"
      else if 0 <? speed then "2"
      else "3" in
    _send_command ("04 07 " +:+ direction +:+ speed_hex) false ;; ret tt.

Definition zoom_stop : M unit := zoom 0.

(** The part of [zoom_to] after the rounding, on the integer
    [pos_int]. *)
Definition zoom_to_int (pos_int : Z) : M unit :=
  let pos_hex := Py.format_04x pos_int in
  let encoded := Py.join " " (map (fun c => "0" +:+ c) (Py.chars pos_hex)) in
  _send_command ("04 47 " +:+ encoded) false ;; ret tt.

(** [position] is a finite float.  Its product with the power of two
    16384 is exact, or an infinity when it is beyond the floats; [round]
    of an infinity raises [OverflowError]. *)
Definition zoom_to (position : Q) : M unit :=
  match Py.finite (position * 16384)%Q with
  | None => raise (OverflowError "cannot convert float infinity to integer")
  | Some scaled =>
      let pos_int := Py.round scaled in
      zoom_to_int pos_int
  end.

Definition get_zoom_position : M Z :=
  do response <- _send_command "04 47" true ;
  if falsy response || (len response <? 4)
  then raise (ViscaException_init (Bytes (bytes_of_string "Invalid zoom response")))
  else
    match nibbles_value (default [] response) with
    | Some value => ret value
    | None => raise (IndexError "index out of range")
    end.

(** *** Focus *)

(** The dictionary [modes] of [set_focus_mode], in the order it is
    written. *)
Definition modes_items : list (string * string) :=
  [ ("auto", "38 02");
    ("manual", "38 03");
    ("auto/manual", "38 10");
    ("one push trigger", "18 01");
    ("infinity", "18 02") ].

Definition modes : gmap string string := list_to_map modes_items.

(** [repr] of a list of plain strings, as [str(list(modes.keys()))]
    prints it. *)
Definition repr_list (l : list string) : string :=
  "[" +:+ Py.join ", " (map (fun k => "'" +:+ k +:+ "'") l) +:+ "]".

Definition set_focus_mode (mode : string) : M unit :=
  let mode_lower := Py.lower mode in
  match modes !! mode_lower with
  | None =>
      raise (ValueError ("Invalid mode: " +:+ mode +:+ ". Valid: "
                         +:+ repr_list (modes_items.*1)))
  | Some code => _send_command ("04 " +:+ code) false ;; ret tt
  end.

Definition manual_focus (speed : Z) : M unit :=
  if 7 <? Z.abs speed
  then raise (ValueError "Focus speed must be between -7 and 7")
  else
    let speed_hex := Py.format_x (Z.abs speed) in
    let direction :=
      if speed =? 0 then "0"
      else if 0 <? speed then "3"
      else "2" in
    _send_command ("04 08 " +:+ direction +:+ speed_hex) false ;; ret tt.

Definition get_focus_mode : M string :=
  do response <- _send_command "04 38" true ;
  if negb (falsy response) && (1 <=? len response)
  then
    match Py.index (default [] response) (-1) with
    | Some 0x02 => ret "auto"
    | Some 0x03 => ret "manual"
    | _ => ret "unknown"
    end
  else ret "unknown".

(** *** Presets *)

Definition save_preset (preset_num : Z) : M unit :=
  if negb ((0 <=? preset_num) && (preset_num <=? 255))
  then raise (ValueError "Preset number must be 0-255")
  else _send_command ("04 3F 01 " +:+ Py.format_02x preset_num) false ;; ret tt.

Definition recall_preset (preset_num : Z) : M unit :=
  if negb ((0 <=? preset_num) && (preset_num <=? 255))
  then raise (ValueError "Preset number must be 0-255")
  else _send_command ("04 3F 02 " +:+ Py.format_02x preset_num) false ;; ret tt.

(** *** Power *)

Definition set_power (power_on : bool) : M unit :=
  let cmd := if power_on then "04 00 02" else "04 00 03" in
  _send_command cmd false ;; ret tt.

Definition get_power_status : M bool :=
  do response <- _send_command "04 00" true ;
  if negb (falsy response) && (1 <=? len response)
  then
    match Py.index (default [] response) (-1) with
    | Some last => ret (last =? 0x02)
    | None => ret false
    end
  else ret false.

(** *** Context manager *)

Definition __enter__ (net : network) : M unit := connect net ;; ret tt.

(** The result [False] lets an exception of the body go on. *)
Definition __exit__ : M bool := close_connection ;; ret false.

(** [with TcpCamera(...) as cam: body] on the object [self]. *)
Definition with_ {A} (net : network) (body : M A) : M A :=
  fun self =>
    match __enter__ net self with
    | (Raise e, self1) => (Raise e, self1)
    | (Return _, self1) =>
        let '(result, self2) := body self1 in
        match __exit__ self2 with
        | (Raise e, self3) => (Raise e, self3)
        | (Return _, self3) => (result, self3)
        end
    end.

(** A socket as the tests set one up: [recv] first raises
    [BlockingIOError], then hands over [reply]. *)
Definition mock_socket (reply : bytes) : socket :=
  {| sk_incoming := [RecvBlockingIOError; RecvData reply]; sk_sent := [];
     sk_send_raises := None; sk_close_raises := false;
     sk_blocking := true; sk_timeout := None; sk_closed := false |}.

Definition cam0 : TcpCamera := __init__ "192.168.1.100" 5678 2.

Definition connected (reply : bytes) : TcpCamera :=
  snd (connect (Accepts (mock_socket reply)) cam0).

Definition sent (self : TcpCamera) : list bytes :=
  match _sock self with Some s => sk_sent s | None => [] end.

(** ** Notions used in the statements *)

(** The nibbles of an unsigned 16-bit value, most significant first. *)
Definition nibbles_of (u : Z) : bytes :=
  [Z.shiftr (u / 256) 4; Z.land (u / 256) 0xf;
   Z.shiftr (u mod 256) 4; Z.land (u mod 256) 0xf].

(** The bytes [_send_command] puts on the wire for a command body. *)
Definition command_bytes_of (command_hex : string) (query : bool) : Z + bytes :=
  Py.fromhex (Py.remove_spaces
    ((if query then "81 09" else "81 01") +:+ " " +:+ command_hex +:+ " FF")).

(** The socket after one exchange: [command_bytes] sent, [rest] still
    to be received, blocking with the configured limit. *)
Definition exchanged (timeout : Q) (command_bytes : bytes)
    (rest : list recv_outcome) (s : socket) : socket :=
  {| sk_incoming := rest; sk_sent := sk_sent s ++ [command_bytes];
     sk_send_raises := None; sk_close_raises := sk_close_raises s;
     sk_blocking := true; sk_timeout := Some timeout;
     sk_closed := sk_closed s |}.

(** The shape of an error reply: three bytes or more, the second with
    high nibble 6. *)
Definition error_shaped (reply : bytes) : Prop :=
  (3 <= length reply)%nat /\ exists b1, reply !! 1%nat = Some b1 /\ b1 / 16 = 6.

(** The names [set_focus_mode] knows. *)
Definition mode_names : list string :=
  ["auto"; "manual"; "auto/manual"; "one push trigger"; "infinity"].

(** The direction byte of one axis, by the sign of its speed. *)
Definition direction_byte (speed : Z) : Z :=
  if speed <? 0 then 0x01 else if 0 <? speed then 0x02 else 0x03.

(** What came back from the exchange has fewer than [n] bytes, or
    nothing came back. *)
Definition shorter_than (response : option bytes) (n : Z) : Prop :=
  match response with
  | None => True
  | Some b => Z.of_nat (length b) < n
  end.

(** The exception of the two position inquiries on a short payload. *)
Definition position_limit : exn :=
  ViscaException 0x76 "Position limit exceeded or command blocked".

(** A connected camera that never answers: the read of the exchange
    times out. *)
Definition silent_camera : TcpCamera :=
  snd (connect
         (Accepts {| sk_incoming := [RecvBlockingIOError; RecvTimeout]; sk_sent := [];
                     sk_send_raises := None; sk_close_raises := false;
                     sk_blocking := true; sk_timeout := None; sk_closed := false |})
         cam0).

(** The frame of each focus mode. *)
Definition focus_frames : list (string * bytes) :=
  [ ("auto", [0x81; 0x01; 0x04; 0x38; 0x02; 0xFF]);
    ("manual", [0x81; 0x01; 0x04; 0x38; 0x03; 0xFF]);
    ("auto/manual", [0x81; 0x01; 0x04; 0x38; 0x10; 0xFF]);
    ("one push trigger", [0x81; 0x01; 0x04; 0x18; 0x01; 0xFF]);
    ("infinity", [0x81; 0x01; 0x04; 0x18; 0x02; 0xFF]) ].

(** An outcome of [recv] that ends the loop of [_flush_input]: no bytes,
    or an exception. *)
Definition stops_flush (o : recv_outcome) : Prop :=
  match o with
  | RecvData (_ :: _) => False
  | RecvData [] | RecvBlockingIOError | RecvTimeout | RecvOSError _ => True
  end.

(** The direction digit of [zoom], and of [manual_focus], by the sign of
    the speed. *)
Definition zoom_direction (speed : Z) : Z :=
  if speed =? 0 then 0 else if 0 <? speed then 2 else 3.

Definition focus_direction (speed : Z) : Z :=
  if speed =? 0 then 0 else if 0 <? speed then 3 else 2.

(** The value a signed 16-bit position has on the wire. *)
Definition twos_complement (v : Z) : Z := v mod 65536.

(** The status codes [ViscaException] has a description for. *)
Definition known_codes : list Z := [1; 2; 3; 4; 5; 0x41; 0x76].

(** What is left to read after the flush lets an action through: no
    reply within the timeout, no bytes, or a reply that is no error
    reply. *)
Definition lets_through (left_to_read : list recv_outcome) : Prop :=
  left_to_read = []
  \/ (exists rest, left_to_read = RecvTimeout :: rest)
  \/ (exists reply rest,
        left_to_read = RecvData reply :: rest
        /\ Forall (fun b => 0 <= b < 256) reply
        /\ ~ error_shaped reply).

(** ** The cases of the test suite *)

Example test_fromhex_digits :
  Py.fromhex "09aAfF" = inr [0x09; 0xAA; 0xFF]
  /\ Py.fromhex "0g" = inl 1 /\ Py.fromhex "0- 04" = inl 1.
Proof. repeat split; reflexivity. Qed.

Example test_pantilt_left :
  sent (snd (pantilt (-5) 0 None None false
               (connected [0x90; 0x41; 0xFF; 0x90; 0x51; 0xFF])))
  = [[0x81; 0x01; 0x06; 0x01; 0x05; 0x00; 0x01; 0x03; 0xFF]].
Proof. reflexivity. Qed.

Example test_pantilt_stop_home :
  sent (snd (pantilt_stop (connected [0x90; 0x41; 0xFF; 0x90; 0x51; 0xFF])))
  = [[0x81; 0x01; 0x06; 0x01; 0x00; 0x00; 0x03; 0x03; 0xFF]]
  /\ sent (snd (pantilt_home (connected [0x90; 0x41; 0xFF; 0x90; 0x51; 0xFF])))
     = [[0x81; 0x01; 0x06; 0x04; 0xFF]].
Proof. split; reflexivity. Qed.

Example test_zoom_in_out :
  sent (snd (zoom 3 (connected [0x90; 0x41; 0xFF; 0x90; 0x51; 0xFF])))
  = [[0x81; 0x01; 0x04; 0x07; 0x23; 0xFF]]
  /\ sent (snd (zoom (-3) (connected [0x90; 0x41; 0xFF; 0x90; 0x51; 0xFF])))
     = [[0x81; 0x01; 0x04; 0x07; 0x33; 0xFF]].
Proof. split; reflexivity. Qed.

Example test_get_pantilt_position :
  fst (get_pantilt_position
         (connected [0x90; 0x50; 0x00; 0x01; 0x02; 0x03; 0x0F; 0x0E; 0x05; 0x00; 0xFF]))
  = Return (0x0123, -432).
Proof. reflexivity. Qed.

Example test_get_focus_mode :
  fst (get_focus_mode (connected [0x90; 0x50; 0x02; 0xFF])) = Return "auto"
  /\ fst (get_focus_mode (connected [0x90; 0x50; 0x03; 0xFF])) = Return "manual".
Proof. split; reflexivity. Qed.

Example test_not_connected :
  fst (pantilt_home cam0)
  = Raise (ConnectionError "Not connected. Call connect() first.").
Proof. reflexivity. Qed.

(** ** Properties of the numeric codec *)

Section Nibbles.

(** Case analysis on a value known to be a nibble. *)
Lemma nibble_cases (P : Z -> Prop) :
  P 0 -> P 1 -> P 2 -> P 3 -> P 4 -> P 5 -> P 6 -> P 7 ->
  P 8 -> P 9 -> P 10 -> P 11 -> P 12 -> P 13 -> P 14 -> P 15 ->
  forall n, 0 <= n < 16 -> P n.
Proof.
  intros H0 H1 H2 H3 H4 H5 H6 H7 H8 H9 H10 H11 H12 H13 H14 H15 n Hn.
  assert (Hin : n ∈ seqZ 0 16) by (apply elem_of_seqZ; lia).
  unfold seqZ in Hin. cbn [Z.to_nat Pos.to_nat Pos.iter_op Nat.add seq fmap list_fmap] in Hin.
  repeat (apply elem_of_cons in Hin as [-> | Hin]; [assumption |]).
  apply elem_of_nil in Hin. contradiction.
Qed.

Lemma format_x_nibble n :
  0 <= n < 16 -> Py.format_x n = String (Py.hex_digit n) "".
Proof. revert n. apply nibble_cases; reflexivity. Qed.

Lemma hex_digit_not_blank n :
  0 <= n < 16 -> Ascii.eqb (Py.hex_digit n) " " = false.
Proof. revert n. apply nibble_cases; reflexivity. Qed.

Lemma hex_digit_not_space n :
  0 <= n < 16 -> Py.is_space (Py.hex_digit n) = false.
Proof. revert n. apply nibble_cases; reflexivity. Qed.

Lemma hex_val_hex_digit n :
  0 <= n < 16 -> Py.hex_val (Py.hex_digit n) = Some n.
Proof. revert n. apply nibble_cases; reflexivity. Qed.

(** One step of [bytes.fromhex]: a pair of digits is a byte. *)
Lemma fromhex_from_pair pos c d s top bot :
  Py.is_space c = false ->
  Py.hex_val c = Some top ->
  Py.hex_val d = Some bot ->
  Py.fromhex_from pos (String c (String d s))
  = match Py.fromhex_from (pos + 2) s with
    | inl p => inl p
    | inr rest => inr (top * 16 + bot :: rest)
    end.
Proof.
  intros Hspace Htop Hbot. cbn [Py.fromhex_from].
  rewrite Hspace, Htop, Hbot. reflexivity.
Qed.

(** A byte splits into two nibbles. *)
Lemma high_nibble_range b : 0 <= b < 256 -> 0 <= Z.shiftr b 4 < 16.
Proof.
  intros Hb. rewrite Z.shiftr_div_pow2 by lia. change (2 ^ 4) with 16.
  split; [apply Z.div_pos; lia | apply Z.div_lt_upper_bound; lia].
Qed.

Lemma low_nibble_range b : 0 <= Z.land b 0xf < 16.
Proof.
  change 0xf with (Z.ones 4). rewrite Z.land_ones by lia.
  apply Z.mod_pos_bound. reflexivity.
Qed.

Lemma land_nibble n : 0 <= n < 16 -> Z.land n 0x0F = n.
Proof.
  intros Hn. change 0x0F with (Z.ones 4). rewrite Z.land_ones by lia.
  apply Z.mod_small. exact Hn.
Qed.

(** Or-ing a value below [2^k] under a value shifted by [k] adds them. *)
Lemma lor_shiftl_add hi lo k :
  0 <= k -> 0 <= lo < 2 ^ k -> Z.lor (Z.shiftl hi k) lo = hi * 2 ^ k + lo.
Proof.
  intros Hk Hlo.
  assert (Hdisjoint : Z.land (Z.shiftl hi k) lo = 0).
  { apply Z.bits_inj'. intros i Hi.
    rewrite Z.land_spec, Z.bits_0.
    destruct (Z.lt_ge_cases i k) as [Hlt | Hge].
    - rewrite Z.shiftl_spec_low by exact Hlt. reflexivity.
    - rewrite <- (Z.mod_small lo (2 ^ k)) by exact Hlo.
      rewrite Z.mod_pow2_bits_high by lia. apply andb_false_r. }
  rewrite <- Z.lxor_lor by exact Hdisjoint.
  rewrite <- Z.add_nocarry_lxor by exact Hdisjoint.
  rewrite Z.shiftl_mul_pow2 by exact Hk. reflexivity.
Qed.

(** The same for any multiple of [2^k] in place of the shifted value. *)
Lemma lor_multiple_add a lo k :
  0 <= k -> a mod 2 ^ k = 0 -> 0 <= lo < 2 ^ k -> Z.lor a lo = a + lo.
Proof.
  intros Hk Ha Hlo.
  assert (Hpos : 0 < 2 ^ k) by (apply Z.pow_pos_nonneg; lia).
  assert (Hsplit : a = Z.shiftl (a / 2 ^ k) k).
  { rewrite Z.shiftl_mul_pow2 by exact Hk.
    pose proof (Z.div_mod a (2 ^ k)) as Hdm. lia. }
  rewrite Hsplit at 1. rewrite lor_shiftl_add by assumption.
  pose proof (Z.div_mod a (2 ^ k)) as Hdm. lia.
Qed.

(** Four nibbles reassemble into their base-16 value. *)
Lemma nibbles_value_nibbles n3 n2 n1 n0 :
  0 <= n3 < 16 -> 0 <= n2 < 16 -> 0 <= n1 < 16 -> 0 <= n0 < 16 ->
  nibbles_value [n3; n2; n1; n0] = Some (n3 * 4096 + n2 * 256 + n1 * 16 + n0).
Proof.
  intros H3 H2 H1 H0.
  change (nibbles_value [n3; n2; n1; n0])
    with (Some (Z.lor (Z.lor (Z.lor (Z.shiftl (Z.land n3 0x0F) 12)
                                    (Z.shiftl (Z.land n2 0x0F) 8))
                             (Z.shiftl (Z.land n1 0x0F) 4))
                      (Z.land n0 0x0F))).
  rewrite !land_nibble by assumption.
  rewrite !Z.shiftl_mul_pow2 by lia.
  change (2 ^ 12) with 4096. change (2 ^ 8) with 256. change (2 ^ 4) with 16.
  rewrite (lor_multiple_add (n3 * 4096) (n2 * 256) 12);
    [| lia | apply Z_mod_mult | change (2 ^ 12) with 4096; lia].
  rewrite (lor_multiple_add (n3 * 4096 + n2 * 256) (n1 * 16) 8);
    [| lia
     | replace (n3 * 4096 + n2 * 256) with ((n3 * 16 + n2) * 2 ^ 8) by lia;
       apply Z_mod_mult
     | change (2 ^ 8) with 256; lia].
  rewrite (lor_multiple_add (n3 * 4096 + n2 * 256 + n1 * 16) n0 4);
    [| lia
     | replace (n3 * 4096 + n2 * 256 + n1 * 16)
         with ((n3 * 256 + n2 * 16 + n1) * 2 ^ 4) by lia;
       apply Z_mod_mult
     | change (2 ^ 4) with 16; lia].
  reflexivity.
Qed.

End Nibbles.

(** Read the next pair of digits of a frame, literal or symbolic. *)
Ltac fromhex_digit :=
  lazymatch goal with
  | |- Py.hex_val (Ascii _ _ _ _ _ _ _ _) = Some _ => vm_compute; reflexivity
  | |- Py.hex_val (Py.hex_digit _) = Some _ => apply hex_val_hex_digit; assumption
  | |- Py.hex_val _ = Some _ => eassumption
  end.

Ltac fromhex_step :=
  erewrite fromhex_from_pair;
  [ | first [reflexivity | apply hex_digit_not_space; assumption | eassumption]
    | fromhex_digit
    | fromhex_digit ].

Section PositionCodec.

(** The text [encode_position] builds: one digit per nibble, each after
    a padding zero. *)
Lemma encode_position_text v :
  -32768 <= v <= 32767 ->
  let u := v mod 65536 in
  encode_position v =
    Some (String "0" (String (Py.hex_digit (Z.shiftr (u / 256) 4))
         (String " " (String "0" (String (Py.hex_digit (Z.land (u / 256) 0xf))
         (String " " (String "0" (String (Py.hex_digit (Z.shiftr (u mod 256) 4))
         (String " " (String "0" (String (Py.hex_digit (Z.land (u mod 256) 0xf))
         ""))))))))))).
Proof.
  intros Hv u. unfold encode_position, Py.to_bytes_2_big_signed.
  replace ((-32768 <=? v) && (v <=? 32767)) with true
    by (symmetry; apply andb_true_iff; split; apply Z.leb_le; lia).
  fold u.
  assert (Hu : 0 <= u < 65536) by (apply Z.mod_pos_bound; lia).
  assert (Hhi : 0 <= u / 256 < 256)
    by (split; [apply Z.div_pos; lia | apply Z.div_lt_upper_bound; lia]).
  assert (Hlo : 0 <= u mod 256 < 256) by (apply Z.mod_pos_bound; lia).
  cbn [mbind option_bind map Py.join].
  rewrite !format_x_nibble
    by first [apply high_nibble_range; assumption | apply low_nibble_range].
  reflexivity.
Qed.

(** Such a text, stripped of its blanks and read by [bytes.fromhex] as
    [_send_command] does, is one byte per nibble. *)
Lemma padded_nibbles_wire n3 n2 n1 n0 :
  0 <= n3 < 16 -> 0 <= n2 < 16 -> 0 <= n1 < 16 -> 0 <= n0 < 16 ->
  Py.fromhex (Py.remove_spaces
    (String "0" (String (Py.hex_digit n3)
    (String " " (String "0" (String (Py.hex_digit n2)
    (String " " (String "0" (String (Py.hex_digit n1)
    (String " " (String "0" (String (Py.hex_digit n0) ""))))))))))))
  = inr [n3; n2; n1; n0].
Proof.
  intros H3 H2 H1 H0.
  cbn [Py.remove_spaces Ascii.eqb Bool.eqb].
  rewrite !hex_digit_not_blank by assumption.
  unfold Py.fromhex. repeat fromhex_step.
  cbn [Py.fromhex_from]. rewrite !Z.mul_0_l, !Z.add_0_l. reflexivity.
Qed.

Lemma nibbles_value_nibbles_of u :
  0 <= u < 65536 -> nibbles_value (nibbles_of u) = Some u.
Proof.
  intros Hu. unfold nibbles_of.
  assert (Hhi : 0 <= u / 256 < 256)
    by (split; [apply Z.div_pos; lia | apply Z.div_lt_upper_bound; lia]).
  assert (Hlo : 0 <= u mod 256 < 256) by (apply Z.mod_pos_bound; lia).
  rewrite nibbles_value_nibbles
    by first [apply high_nibble_range; assumption | apply low_nibble_range].
  f_equal.
  change 0xf with (Z.ones 4). rewrite !Z.land_ones, !Z.shiftr_div_pow2 by lia.
  change (2 ^ 4) with 16.
  pose proof (Z.div_mod (u / 256) 16). pose proof (Z.div_mod (u mod 256) 16).
  pose proof (Z.div_mod u 256). lia.
Qed.

End PositionCodec.

(** C1. Decoding the four bytes that [encode_position] puts on the wire
    for a signed 16-bit [v] gives [v] back: the bytes are the four
    nibbles of the two's complement of [v], most significant first, each
    in the low half of its byte, and [decode_position] subtracts 0x10000
    from a reassembled value of 0x8000 or more. *)
Theorem decode_encode_position (v : Z) :
  -32768 <= v <= 32767 ->
  exists (encoded : string) (data : bytes),
    encode_position v = Some encoded
    /\ Py.fromhex (Py.remove_spaces encoded) = inr data
    /\ data = nibbles_of (v mod 65536)
    /\ Forall (fun b => 0 <= b < 16) data
    /\ decode_position data = Some v.
Proof.
  intros Hv.
  assert (Hu : 0 <= v mod 65536 < 65536) by (apply Z.mod_pos_bound; lia).
  assert (Hhi : 0 <= v mod 65536 / 256 < 256)
    by (split; [apply Z.div_pos; lia | apply Z.div_lt_upper_bound; lia]).
  assert (Hlo : 0 <= (v mod 65536) mod 256 < 256) by (apply Z.mod_pos_bound; lia).
  eexists. exists (nibbles_of (v mod 65536)).
  split; [apply encode_position_text; exact Hv |].
  split.
  { apply padded_nibbles_wire;
      first [apply high_nibble_range; assumption | apply low_nibble_range]. }
  split; [reflexivity |].
  split.
  { unfold nibbles_of.
    repeat (apply Forall_cons; split;
            [first [apply high_nibble_range; assumption | apply low_nibble_range] |]).
    apply Forall_nil. trivial. }
  unfold decode_position. rewrite nibbles_value_nibbles_of by exact Hu.
  cbn [mbind option_bind]. f_equal.
  destruct (Z.lt_ge_cases v 0) as [Hlt | Hge].
  - assert (Hv' : v mod 65536 = v + 65536)
      by (symmetry; apply (Z.mod_unique_pos _ _ (-1)); lia).
    rewrite Hv'. destruct (Z.leb_spec 0x8000 (v + 65536)); lia.
  - rewrite (Z.mod_small v 65536) by lia.
    destruct (Z.leb_spec 0x8000 v); lia.
Qed.

(** The round trip at the tilt value of the test suite. *)
Lemma decode_encode_position_witness :
  exists (encoded : string) (data : bytes),
    encode_position (-432) = Some encoded
    /\ Py.fromhex (Py.remove_spaces encoded) = inr data
    /\ data = nibbles_of ((-432) mod 65536)
    /\ Forall (fun b => 0 <= b < 16) data
    /\ decode_position data = Some (-432).
Proof. apply (decode_encode_position (-432)). lia. Defined.

(** ** One exchange *)

Section Exchange.

Variables (self : TcpCamera) (s : socket).
Variables (command_hex : string) (query : bool) (command_bytes : bytes).
Hypothesis Hsock : _sock self = Some s.
Hypothesis Hsend : sk_send_raises s = None.
Hypothesis Hcommand : command_bytes_of command_hex query = inr command_bytes.

(** A reply arrived: after the stale input, [recv] hands over [reply]. *)
Lemma _send_command_reply reply rest :
  drain (sk_incoming s) = RecvData reply :: rest ->
  _send_command command_hex query self =
    (match reply with
     | [] => Return None
     | _ :: _ =>
         if (3 <=? Z.of_nat (length reply))
            && match Py.index reply 1 with
               | Some b => Z.land b 0xF0 =? 0x60
               | None => false
               end
         then Raise (ViscaException_init (Bytes reply))
         else if query && (3 <? Z.of_nat (length reply))
         then Return (Some (Py.slice reply 2 (-1)))
         else Return (Some reply)
     end,
     set_sock (Some (exchanged (_timeout self) command_bytes rest s)) self).
Proof.
  intros Hdrain. unfold command_bytes_of in Hcommand.
  unfold _send_command. rewrite Hsock.
  unfold bind at 1. unfold _flush_input. rewrite Hsock.
  rewrite Hcommand.
  unfold bind at 1. unfold sock_send. cbn [_sock set_sock].
  unfold send. cbn [sk_send_raises settimeout setblocking set_incoming].
  rewrite Hsend.
  unfold bind at 1. unfold sock_recv. cbn [_sock set_sock].
  unfold recv. cbn [sk_incoming settimeout setblocking set_incoming].
  rewrite Hdrain.
  cbn [set_incoming sk_sent sk_send_raises sk_close_raises sk_blocking
       sk_timeout sk_closed sk_incoming _ip _port _timeout _sock set_sock].
  unfold exchanged.
  destruct reply as [| b0 reply']; [reflexivity |].
  destruct ((3 <=? Z.of_nat (length (b0 :: reply')))
            && match Py.index (b0 :: reply') 1 with
               | Some b => Z.land b 0xF0 =? 0x60
               | None => false
               end); [reflexivity |].
  destruct (query && (3 <? Z.of_nat (length (b0 :: reply')))); reflexivity.
Qed.

(** Nothing arrived: the read after the stale input times out. *)
Lemma _send_command_timeout rest :
  drain (sk_incoming s) = [] /\ rest = []
  \/ drain (sk_incoming s) = RecvTimeout :: rest ->
  _send_command command_hex query self =
    (Return None,
     set_sock (Some (exchanged (_timeout self) command_bytes rest s)) self).
Proof.
  intros Hdrain. unfold command_bytes_of in Hcommand.
  unfold _send_command. rewrite Hsock.
  unfold bind at 1. unfold _flush_input. rewrite Hsock.
  rewrite Hcommand.
  unfold bind at 1. unfold sock_send. cbn [_sock set_sock].
  unfold send. cbn [sk_send_raises settimeout setblocking set_incoming].
  rewrite Hsend.
  unfold bind at 1. unfold sock_recv. cbn [_sock set_sock].
  unfold recv. cbn [sk_incoming settimeout setblocking set_incoming].
  destruct Hdrain as [[Hdrain ->] | Hdrain]; rewrite Hdrain; reflexivity.
Qed.

(** Whatever comes back, the command has been handed to [send] once, and
    the socket stays in place. *)
Lemma _send_command_sends :
  exists (result : outcome (option bytes)) (s' : socket),
    _send_command command_hex query self = (result, set_sock (Some s') self)
    /\ sk_sent s' = (sk_sent s ++ [command_bytes])%list.
Proof.
  destruct (drain (sk_incoming s)) as [| [reply | | | msg] rest] eqn:Hdrain.
  - eexists. eexists. split;
      [apply (_send_command_timeout []); left; split; [exact Hdrain | reflexivity]
      | reflexivity].
  - eexists. eexists. split; [apply (_send_command_reply reply rest Hdrain) | reflexivity].
  - unfold command_bytes_of in Hcommand.
    unfold _send_command. rewrite Hsock.
    unfold bind at 1. unfold _flush_input. rewrite Hsock. rewrite Hcommand.
    unfold bind at 1. unfold sock_send. cbn [_sock set_sock].
    unfold send. cbn [sk_send_raises settimeout setblocking set_incoming].
    rewrite Hsend.
    unfold bind at 1. unfold sock_recv. cbn [_sock set_sock].
    unfold recv. cbn [sk_incoming settimeout setblocking set_incoming].
    rewrite Hdrain. eexists. eexists. split; reflexivity.
  - eexists. eexists. split;
      [apply (_send_command_timeout rest); right; exact Hdrain | reflexivity].
  - unfold command_bytes_of in Hcommand.
    unfold _send_command. rewrite Hsock.
    unfold bind at 1. unfold _flush_input. rewrite Hsock. rewrite Hcommand.
    unfold bind at 1. unfold sock_send. cbn [_sock set_sock].
    unfold send. cbn [sk_send_raises settimeout setblocking set_incoming].
    rewrite Hsend.
    unfold bind at 1. unfold sock_recv. cbn [_sock set_sock].
    unfold recv. cbn [sk_incoming settimeout setblocking set_incoming].
    rewrite Hdrain. eexists. eexists. split; reflexivity.
Qed.

End Exchange.

(** ** Classification of the reply *)

(** A boolean test that holds on a whole range of integers holds at each
    of them. *)
Lemma forallb_seqZ (f : Z -> bool) (lo n : Z) :
  forallb f (seqZ lo n) = true -> forall z, lo <= z < lo + n -> f z = true.
Proof.
  intros Hall z Hz. rewrite forallb_forall in Hall. apply Hall.
  apply list_elem_of_In, elem_of_seqZ. exact Hz.
Qed.

(** On a byte, the mask test of [_send_command] reads the high nibble. *)
Lemma mask_high_nibble b :
  0 <= b < 256 -> (Z.land b 0xF0 =? 0x60) = (b / 16 =? 6).
Proof.
  intros Hb.
  apply Bool.eqb_prop.
  apply (forallb_seqZ (fun b => Bool.eqb (Z.land b 0xF0 =? 0x60) (b / 16 =? 6)) 0 256);
    [vm_compute; reflexivity | lia].
Qed.

Lemma error_test_shaped reply :
  Forall (fun b => 0 <= b < 256) reply ->
  (3 <=? Z.of_nat (length reply))
  && match Py.index reply 1 with
     | Some b => Z.land b 0xF0 =? 0x60
     | None => false
     end = true
  <-> error_shaped reply.
Proof.
  intros Hbytes. unfold error_shaped.
  destruct reply as [| b0 [| b1 reply']].
  - cbn. split; [discriminate | intros [? _]; lia].
  - cbn. split; [discriminate | intros [? _]; lia].
  - assert (Hb1 : 0 <= b1 < 256).
    { inversion Hbytes as [| ? ? _ Htl]; subst. inversion Htl; subst. assumption. }
    replace (Py.index (b0 :: b1 :: reply') 1) with (Some b1)
      by (unfold Py.index; cbn [length]; 
          replace (1 <? 0) with false by reflexivity;
          replace ((0 <=? 1) && (1 <? Z.of_nat (S (S (length reply'))))) with true
            by (symmetry; apply andb_true_iff; split; [reflexivity | apply Z.ltb_lt; lia]);
          reflexivity).
    rewrite mask_high_nibble by exact Hb1.
    rewrite andb_true_iff, Z.leb_le, Z.eqb_eq. cbn [length].
    split.
    + intros [Hlen Hnib]. split; [lia |]. exists b1. split; [reflexivity | exact Hnib].
    + intros [Hlen (b & Hb & Hnib)]. cbn in Hb. injection Hb as <-. split; [lia | exact Hnib].
Qed.

(** C2. A reply of three bytes or more whose second byte has high nibble
    6 makes the exchange raise [ViscaException] with the third byte as
    status code, for an action command and for an inquiry alike; a reply
    of any other shape makes the exchange return. *)
Theorem error_reply_raises
    (self : TcpCamera) (s : socket) (command_hex : string) (query : bool)
    (command_bytes reply : bytes) (rest : list recv_outcome) :
  _sock self = Some s ->
  sk_send_raises s = None ->
  command_bytes_of command_hex query = inr command_bytes ->
  drain (sk_incoming s) = RecvData reply :: rest ->
  Forall (fun b => 0 <= b < 256) reply ->
  (error_shaped reply ->
   exists code description self',
     reply !! 2%nat = Some code
     /\ _send_command command_hex query self
        = (Raise (ViscaException code description), self'))
  /\ (~ error_shaped reply ->
      exists result self',
        _send_command command_hex query self = (Return result, self')).
Proof.
  intros Hsock Hsend Hcommand Hdrain Hbytes.
  rewrite (_send_command_reply self s command_hex query command_bytes
             Hsock Hsend Hcommand reply rest Hdrain).
  pose proof (error_test_shaped reply Hbytes) as Htest.
  split.
  - intros Hshape. pose proof Hshape as [Hlen _].
    apply Htest in Hshape.
    destruct reply as [| b0 [| b1 [| b2 reply']]]; cbn in Hlen; try lia.
    rewrite Hshape.
    exists b2. eexists. eexists. split; [reflexivity |].
    unfold ViscaException_init.
    replace (3 <=? Z.of_nat (length (b0 :: b1 :: b2 :: reply'))) with true
      by (symmetry; apply Z.leb_le; cbn [length]; lia).
    replace (Py.index (b0 :: b1 :: b2 :: reply') 2) with (Some b2)
      by (unfold Py.index; cbn [length];
          replace (2 <? 0) with false by reflexivity;
          replace ((0 <=? 2) && (2 <? Z.of_nat (S (S (S (length reply')))))) with true
            by (symmetry; apply andb_true_iff; split; [reflexivity | apply Z.ltb_lt; lia]);
          reflexivity).
    reflexivity.
  - intros Hshape.
    destruct reply as [| b0 reply']; [eexists; eexists; reflexivity |].
    destruct ((3 <=? Z.of_nat (length (b0 :: reply')))
              && match Py.index (b0 :: reply') 1 with
                 | Some b => Z.land b 0xF0 =? 0x60
                 | None => false
                 end) eqn:Hcheck.
    + exfalso. apply Hshape, Htest. reflexivity.
    + destruct (query && (3 <? Z.of_nat (length (b0 :: reply'))));
        eexists; eexists; reflexivity.
Qed.

(** The test reply [90 60 02 FF] to a pan/tilt inquiry raises the
    exception of status 2. *)
Lemma error_reply_raises_witness :
  exists code description self',
    [0x90; 0x60; 0x02; 0xFF] !! 2%nat = Some code
    /\ _send_command "06 12" true (connected [0x90; 0x60; 0x02; 0xFF])
       = (Raise (ViscaException code description), self').
Proof.
  destruct (error_reply_raises
              (connected [0x90; 0x60; 0x02; 0xFF])
              (settimeout 2 (mock_socket [0x90; 0x60; 0x02; 0xFF]))
              "06 12" true [0x81; 0x09; 0x06; 0x12; 0xFF]
              [0x90; 0x60; 0x02; 0xFF] []) as [Herror _].
  - reflexivity.
  - reflexivity.
  - reflexivity.
  - reflexivity.
  - repeat (apply Forall_cons; split; [lia |]). apply Forall_nil. trivial.
  - apply Herror. split; [simpl; lia |]. exists 0x60. split; reflexivity.
Defined.

(** ** Validation of the arguments *)

Lemma modes_lookup_None (name : string) :
  name ∉ mode_names -> modes !! name = None.
Proof.
  intros Hname. unfold modes. apply not_elem_of_list_to_map_1. exact Hname.
Qed.

(** C3. An argument out of range raises [ValueError] before any input
    or output, and leaves the camera object, its socket included, as it
    was: a pan or tilt speed outside [-24, 24], a zoom or focus speed
    outside [-7, 7], a preset number outside [0, 255], a focus mode whose
    lower-case form is none of the five names. *)
Theorem validation_before_io (self : TcpCamera) :
  (forall pan_speed tilt_speed pan_position tilt_position relative,
      ~ (-24 <= pan_speed <= 24) \/ ~ (-24 <= tilt_speed <= 24) ->
      exists msg,
        pantilt pan_speed tilt_speed pan_position tilt_position relative self
        = (Raise (ValueError msg), self))
  /\ (forall speed,
        ~ (-7 <= speed <= 7) ->
        (exists msg, zoom speed self = (Raise (ValueError msg), self))
        /\ (exists msg, manual_focus speed self = (Raise (ValueError msg), self)))
  /\ (forall preset_num,
        ~ (0 <= preset_num <= 255) ->
        (exists msg, save_preset preset_num self = (Raise (ValueError msg), self))
        /\ (exists msg, recall_preset preset_num self = (Raise (ValueError msg), self)))
  /\ (forall mode,
        Py.lower mode ∉ mode_names ->
        exists msg, set_focus_mode mode self = (Raise (ValueError msg), self)).
Proof.
  repeat split.
  - intros pan_speed tilt_speed pan_position tilt_position relative Hrange.
    unfold pantilt.
    replace ((24 <? Z.abs pan_speed) || (24 <? Z.abs tilt_speed)) with true
      by (symmetry; apply orb_true_iff; rewrite !Z.ltb_lt; lia).
    eexists. reflexivity.
  - unfold zoom. replace (7 <? Z.abs speed) with true by (symmetry; apply Z.ltb_lt; lia).
    eexists. reflexivity.
  - unfold manual_focus.
    replace (7 <? Z.abs speed) with true by (symmetry; apply Z.ltb_lt; lia).
    eexists. reflexivity.
  - unfold save_preset.
    replace ((0 <=? preset_num) && (preset_num <=? 255)) with false
      by (symmetry; apply andb_false_iff; rewrite Z.leb_gt, Z.leb_gt; lia).
    eexists. reflexivity.
  - unfold recall_preset.
    replace ((0 <=? preset_num) && (preset_num <=? 255)) with false
      by (symmetry; apply andb_false_iff; rewrite Z.leb_gt, Z.leb_gt; lia).
    eexists. reflexivity.
  - intros mode Hmode. unfold set_focus_mode.
    rewrite (modes_lookup_None _ Hmode). eexists. reflexivity.
Qed.

(** The four rejected calls of the test suite, on a connected camera:
    nothing is sent and nothing is read. *)
Lemma validation_before_io_witness :
  let self := connected [0x90; 0x41; 0xFF; 0x90; 0x51; 0xFF] in
  (exists msg, pantilt 25 0 None None false self = (Raise (ValueError msg), self))
  /\ (exists msg, zoom 8 self = (Raise (ValueError msg), self))
  /\ (exists msg, save_preset 256 self = (Raise (ValueError msg), self))
  /\ (exists msg, set_focus_mode "invalid" self = (Raise (ValueError msg), self)).
Proof.
  intros self.
  destruct (validation_before_io self) as (Hpantilt & Hspeed & Hpreset & Hmode).
  split; [apply Hpantilt; lia |].
  split; [apply (Hspeed 8); lia |].
  split; [apply (Hpreset 256); lia |].
  apply Hmode. vm_compute.
  intros Hin. repeat (apply elem_of_cons in Hin as [Heq | Hin]; [discriminate Heq |]).
  apply elem_of_nil in Hin. exact Hin.
Defined.

(** ** Command frames *)

(** Two digits for a byte. *)
Lemma format_02x_byte a :
  0 <= a < 256 ->
  Py.format_02x a = String (Py.hex_digit (a / 16)) (String (Py.hex_digit (a mod 16)) "").
Proof.
  intros Ha. apply String.eqb_eq.
  apply (forallb_seqZ
           (fun a => String.eqb (Py.format_02x a)
                       (String (Py.hex_digit (a / 16))
                          (String (Py.hex_digit (a mod 16)) ""))) 0 256);
    [vm_compute; reflexivity | lia].
Qed.

Lemma direction_text speed :
  exists c, direction speed = String "0" (String c "")
            /\ Ascii.eqb c " " = false /\ Py.is_space c = false
            /\ Py.hex_val c = Some (direction_byte speed).
Proof.
  unfold direction, direction_byte.
  destruct (speed <? 0); [| destruct (0 <? speed)];
    eexists; repeat split; reflexivity.
Qed.

Lemma pantilt_continuous_frame pan_speed tilt_speed :
  -24 <= pan_speed <= 24 -> -24 <= tilt_speed <= 24 ->
  command_bytes_of
    ("06 01 " +:+ Py.format_02x (Z.abs pan_speed) +:+ " "
     +:+ Py.format_02x (Z.abs tilt_speed) +:+ " "
     +:+ direction pan_speed +:+ " " +:+ direction tilt_speed) false
  = inr [0x81; 0x01; 0x06; 0x01; Z.abs pan_speed; Z.abs tilt_speed;
         direction_byte pan_speed; direction_byte tilt_speed; 0xFF].
Proof.
  intros Hpan Htilt.
  assert (Hp : 0 <= Z.abs pan_speed < 256) by lia.
  assert (Ht : 0 <= Z.abs tilt_speed < 256) by lia.
  rewrite !format_02x_byte by assumption.
  destruct (direction_text pan_speed) as (cp & -> & Hcp1 & Hcp2 & Hcp3).
  destruct (direction_text tilt_speed) as (ct & -> & Hct1 & Hct2 & Hct3).
  assert (Hp1 : 0 <= Z.abs pan_speed / 16 < 16)
    by (split; [apply Z.div_pos; lia | apply Z.div_lt_upper_bound; lia]).
  assert (Hp0 : 0 <= Z.abs pan_speed mod 16 < 16) by (apply Z.mod_pos_bound; lia).
  assert (Ht1 : 0 <= Z.abs tilt_speed / 16 < 16)
    by (split; [apply Z.div_pos; lia | apply Z.div_lt_upper_bound; lia]).
  assert (Ht0 : 0 <= Z.abs tilt_speed mod 16 < 16) by (apply Z.mod_pos_bound; lia).
  unfold command_bytes_of.
  cbv [append]. cbn [Py.remove_spaces Ascii.eqb Bool.eqb].
  rewrite !hex_digit_not_blank, Hcp1, Hct1 by assumption.
  unfold Py.fromhex. repeat fromhex_step. cbn [Py.fromhex_from].
  pose proof (Z.div_mod (Z.abs pan_speed) 16) as Hpd.
  pose proof (Z.div_mod (Z.abs tilt_speed) 16) as Htd.
  repeat f_equal; lia.
Qed.

(** An action built on one [_send_command] sends what the command
    sends. *)
Lemma action_sends (self : TcpCamera) (s : socket) (command_hex : string)
    (command_bytes : bytes) :
  _sock self = Some s ->
  sk_send_raises s = None ->
  command_bytes_of command_hex false = inr command_bytes ->
  exists (result : outcome unit) (s' : socket),
    (_send_command command_hex false ;; ret tt) self = (result, set_sock (Some s') self)
    /\ sk_sent s' = (sk_sent s ++ [command_bytes])%list.
Proof.
  intros Hsock Hsend Hcommand.
  destruct (_send_command_sends self s command_hex false command_bytes
              Hsock Hsend Hcommand) as (result & s' & Hrun & Hsent).
  unfold bind. rewrite Hrun.
  destruct result as [response | e]; eexists; exists s'; split;
    first [reflexivity | exact Hsent].
Qed.

(** C4. With both positions left out and both speeds in [-24, 24],
    [pantilt] hands to [send] exactly the nine bytes
    81 01 06 01 |pan_speed| |tilt_speed| dir(pan_speed) dir(tilt_speed) FF,
    where dir is 01 below zero, 02 above zero and 03 at zero. *)
Theorem pantilt_continuous_sends
    (self : TcpCamera) (s : socket) (pan_speed tilt_speed : Z) (relative : bool) :
  _sock self = Some s ->
  sk_send_raises s = None ->
  -24 <= pan_speed <= 24 ->
  -24 <= tilt_speed <= 24 ->
  exists (result : outcome unit) (s' : socket),
    pantilt pan_speed tilt_speed None None relative self
    = (result, set_sock (Some s') self)
    /\ sk_sent s'
       = (sk_sent s
          ++ [[0x81; 0x01; 0x06; 0x01; Z.abs pan_speed; Z.abs tilt_speed;
               direction_byte pan_speed; direction_byte tilt_speed; 0xFF]])%list.
Proof.
  intros Hsock Hsend Hpan Htilt. unfold pantilt.
  replace ((24 <? Z.abs pan_speed) || (24 <? Z.abs tilt_speed)) with false
    by (symmetry; apply orb_false_iff; rewrite !Z.ltb_ge; lia).
  apply (action_sends self s _ _ Hsock Hsend).
  apply pantilt_continuous_frame; assumption.
Qed.

(** [pantilt(pan_speed=5, tilt_speed=0)] sends 81 01 06 01 05 00 02 03 FF. *)
Lemma pantilt_continuous_sends_witness :
  exists (result : outcome unit) (s' : socket),
    pantilt 5 0 None None false (connected [0x90; 0x41; 0xFF; 0x90; 0x51; 0xFF])
    = (result, set_sock (Some s') (connected [0x90; 0x41; 0xFF; 0x90; 0x51; 0xFF]))
    /\ sk_sent s' = [[0x81; 0x01; 0x06; 0x01; 0x05; 0x00; 0x02; 0x03; 0xFF]].
Proof.
  apply (pantilt_continuous_sends
           (connected [0x90; 0x41; 0xFF; 0x90; 0x51; 0xFF])
           (settimeout 2 (mock_socket [0x90; 0x41; 0xFF; 0x90; 0x51; 0xFF]))
           5 0 false); first [reflexivity | lia].
Defined.

(** ** Inquiry replies *)

(** On more than three elements, [l[2:-1]] is [l] without its first two
    and its last. *)
Lemma slice_2_m1 {A} (l : list A) :
  (3 < length l)%nat ->
  exists h0 h1 t, l = (h0 :: h1 :: Py.slice l 2 (-1) ++ [t])%list.
Proof.
  intros Hlen.
  destruct l as [| h0 [| h1 tl]]; cbn [length] in Hlen; try lia.
  assert (Hslice : Py.slice (h0 :: h1 :: tl) 2 (-1) = take (length tl - 1) tl).
  { unfold Py.slice. cbn [length].
    change (2 <? 0) with false. change (-1 <? 0) with true. cbv iota.
    replace (Z.min (Z.of_nat (S (S (length tl)))) (Z.max 0 2)) with 2 by lia.
    replace (Z.min (Z.of_nat (S (S (length tl))))
               (Z.max 0 (-1 + Z.of_nat (S (S (length tl))))))
      with (Z.of_nat (S (length tl))) by lia.
    replace (Z.to_nat (Z.of_nat (S (length tl)) - 2)) with (length tl - 1)%nat by lia.
    reflexivity. }
  rewrite Hslice.
  destruct (drop (length tl - 1) tl) as [| t [| t' rest]] eqn:Hdrop.
  - apply (f_equal length) in Hdrop. rewrite length_drop in Hdrop. cbn in Hdrop. lia.
  - exists h0, h1, t. rewrite <- Hdrop, take_drop. reflexivity.
  - apply (f_equal length) in Hdrop. rewrite length_drop in Hdrop. cbn in Hdrop. lia.
Qed.

(** C5. An inquiry whose reply is longer than three bytes and is not an
    error reply hands its caller the reply without the two header bytes
    and without the terminator; the zoom inquiry reply
    90 50 01 02 03 04 FF gives the payload 01 02 03 04, which
    [get_zoom_position] decodes to 0x1234. *)
Theorem inquiry_payload
    (self : TcpCamera) (s : socket) (command_hex : string)
    (command_bytes reply : bytes) (rest : list recv_outcome) :
  _sock self = Some s ->
  sk_send_raises s = None ->
  command_bytes_of command_hex true = inr command_bytes ->
  drain (sk_incoming s) = RecvData reply :: rest ->
  Forall (fun b => 0 <= b < 256) reply ->
  ~ error_shaped reply ->
  (3 < length reply)%nat ->
  (exists (payload : bytes) (h0 h1 t : Z) (self' : TcpCamera),
      reply = (h0 :: h1 :: payload ++ [t])%list
      /\ _send_command command_hex true self = (Return (Some payload), self'))
  /\ (reply = [0x90; 0x50; 0x01; 0x02; 0x03; 0x04; 0xFF] ->
      (exists self',
          _send_command "04 47" true self = (Return (Some [0x01; 0x02; 0x03; 0x04]), self'))
      /\ exists self', get_zoom_position self = (Return 0x1234, self')).
Proof.
  intros Hsock Hsend Hcommand Hdrain Hbytes Hshape Hlen.
  split.
  - rewrite (_send_command_reply self s command_hex true command_bytes
               Hsock Hsend Hcommand reply rest Hdrain).
    destruct (slice_2_m1 reply Hlen) as (h0 & h1 & t & Hreply).
    exists (Py.slice reply 2 (-1)), h0, h1, t. eexists.
    split; [exact Hreply |].
    destruct reply as [| b0 reply']; [cbn in Hlen; lia |].
    destruct ((3 <=? Z.of_nat (length (b0 :: reply')))
              && match Py.index (b0 :: reply') 1 with
                 | Some b => Z.land b 0xF0 =? 0x60
                 | None => false
                 end) eqn:Hcheck.
    + exfalso. apply Hshape. apply error_test_shaped; assumption.
    + replace (3 <? Z.of_nat (length (b0 :: reply'))) with true
        by (symmetry; apply Z.ltb_lt; lia).
      reflexivity.
  - intros ->.
    assert (Hzoom : command_bytes_of "04 47" true = inr [0x81; 0x09; 0x04; 0x47; 0xFF])
      by reflexivity.
    pose proof (_send_command_reply self s "04 47" true _ Hsock Hsend Hzoom _ rest Hdrain)
      as Hrun.
    split.
    + eexists. exact Hrun.
    + unfold get_zoom_position, bind. rewrite Hrun. eexists. reflexivity.
Qed.

(** The zoom inquiry of the test suite. *)
Lemma inquiry_payload_witness :
  (exists self',
      _send_command "04 47" true (connected [0x90; 0x50; 0x01; 0x02; 0x03; 0x04; 0xFF])
      = (Return (Some [0x01; 0x02; 0x03; 0x04]), self'))
  /\ exists self',
      get_zoom_position (connected [0x90; 0x50; 0x01; 0x02; 0x03; 0x04; 0xFF])
      = (Return 0x1234, self').
Proof.
  destruct (inquiry_payload
              (connected [0x90; 0x50; 0x01; 0x02; 0x03; 0x04; 0xFF])
              (settimeout 2 (mock_socket [0x90; 0x50; 0x01; 0x02; 0x03; 0x04; 0xFF]))
              "04 47" [0x81; 0x09; 0x04; 0x47; 0xFF]
              [0x90; 0x50; 0x01; 0x02; 0x03; 0x04; 0xFF] []) as [_ Hzoom].
  - reflexivity.
  - reflexivity.
  - reflexivity.
  - reflexivity.
  - repeat (apply Forall_cons; split; [lia |]). apply Forall_nil. trivial.
  - intros [_ (b1 & Hb1 & Hnib)]. cbn in Hb1. injection Hb1 as <-. discriminate Hnib.
  - simpl. lia.
  - apply Hzoom. reflexivity.
Defined.

(** ** Life cycle of the connection *)

Lemma close_connection_returns (self : TcpCamera) :
  close_connection self = (Return tt, set_sock None self).
Proof.
  unfold close_connection. destruct self as [ip port timeout [s |]]; reflexivity.
Qed.

(** C6. The camera holds no socket when it is created, after a
    connection attempt that failed, and after every [close_connection]:
    the first one, a repeated one, and the one [__exit__] makes when the
    body of a [with] block has raised.  [close_connection] returns
    whether or not the socket's own [close] raises. *)
Theorem no_socket_outside_connection :
  (forall ip port timeout, _sock (__init__ ip port timeout) = None)
  /\ (forall (self : TcpCamera) reason,
        exists msg self',
          connect (Refuses reason) self = (Raise (ConnectionError msg), self')
          /\ _sock self' = None)
  /\ (forall self : TcpCamera,
        exists self',
          close_connection self = (Return tt, self')
          /\ _sock self' = None
          /\ close_connection self' = (Return tt, self'))
  /\ (forall A net (body : M A) (self : TcpCamera),
        _sock (snd (with_ net body self)) = None)
  /\ (forall A s (body : M A) (self : TcpCamera) e self1,
        body (snd (connect (Accepts s) self)) = (Raise e, self1) ->
        with_ (Accepts s) body self = (Raise e, set_sock None self1)).
Proof.
  split; [reflexivity |].
  split; [intros self reason; eexists; eexists; split; reflexivity |].
  split.
  { intros self. exists (set_sock None self).
    split; [apply close_connection_returns |].
    split; reflexivity. }
  split.
  - intros A net body self. unfold with_, __enter__, __exit__, bind, ret.
    destruct net as [s | reason]; cbn [connect]; [| reflexivity].
    destruct (body (set_sock (Some (settimeout (_timeout self) s)) self))
      as [result self2].
    rewrite close_connection_returns. reflexivity.
  - intros A s body self e self1 Hbody.
    unfold with_, __enter__, __exit__, bind, ret. cbn [connect].
    cbn [connect snd] in Hbody. rewrite Hbody.
    rewrite close_connection_returns. reflexivity.
Qed.

(** A camera whose socket refuses to close: an inquiry inside a [with]
    block raises, the exception goes on, and no socket is left. *)
Lemma no_socket_outside_connection_witness :
  let stubborn :=
    {| sk_incoming := [RecvBlockingIOError; RecvData [0x90; 0x60; 0x02; 0xFF]];
       sk_sent := []; sk_send_raises := None; sk_close_raises := true;
       sk_blocking := true; sk_timeout := None; sk_closed := false |} in
  exists self',
    with_ (Accepts stubborn) get_zoom_position cam0
    = (Raise (ViscaException 2 "Syntax error"), self')
    /\ _sock self' = None.
Proof.
  intros stubborn.
  destruct no_socket_outside_connection as (_ & _ & _ & _ & Hwith).
  eexists. split.
  - eapply (Hwith Z stubborn get_zoom_position cam0). vm_compute. reflexivity.
  - reflexivity.
Defined.

(** ** Indexing and slicing *)

Lemma index_nonneg {A} (l : list A) (i : Z) :
  0 <= i -> Py.index l i = l !! Z.to_nat i.
Proof.
  intros Hi. unfold Py.index.
  replace (i <? 0) with false by (symmetry; apply Z.ltb_ge; exact Hi).
  replace (0 <=? i) with true by (symmetry; apply Z.leb_le; exact Hi).
  destruct (Z.ltb_spec i (Z.of_nat (length l))) as [Hlt | Hge]; [reflexivity |].
  symmetry. apply lookup_ge_None. lia.
Qed.

Lemma index_last {A} (l : list A) (x : A) : Py.index (l ++ [x]) (-1) = Some x.
Proof.
  unfold Py.index. change (-1 <? 0) with true. cbv iota.
  rewrite length_app. cbn [length].
  replace ((0 <=? -1 + Z.of_nat (length l + 1))
           && (-1 + Z.of_nat (length l + 1) <? Z.of_nat (length l + 1))) with true
    by (symmetry; apply andb_true_iff; rewrite Z.leb_le, Z.ltb_lt; lia).
  replace (Z.to_nat (-1 + Z.of_nat (length l + 1))) with (length l + 0)%nat by lia.
  rewrite lookup_app_r by lia.
  replace (length l + 0 - length l)%nat with 0%nat by lia. reflexivity.
Qed.

(** A slice between two bounds within the list. *)
Lemma slice_within {A} (l : list A) (a b : Z) :
  0 <= a <= b -> b <= Z.of_nat (length l) ->
  Py.slice l a b = take (Z.to_nat (b - a)) (drop (Z.to_nat a) l).
Proof.
  intros Hab Hb. unfold Py.slice.
  replace (a <? 0) with false by (symmetry; apply Z.ltb_ge; lia).
  replace (b <? 0) with false by (symmetry; apply Z.ltb_ge; lia).
  replace (Z.min (Z.of_nat (length l)) (Z.max 0 a)) with a by lia.
  replace (Z.min (Z.of_nat (length l)) (Z.max 0 b)) with b by lia.
  reflexivity.
Qed.

(** The value of four bytes depends on their low nibbles only, and is
    an unsigned 16-bit value. *)
Lemma nibbles_value_low d0 d1 d2 d3 (tl : bytes) :
  exists u,
    nibbles_value (d0 :: d1 :: d2 :: d3 :: tl) = Some u
    /\ u = Z.land d0 0xf * 4096 + Z.land d1 0xf * 256 + Z.land d2 0xf * 16 + Z.land d3 0xf
    /\ 0 <= u < 65536.
Proof.
  pose proof (low_nibble_range d0) as H0. pose proof (low_nibble_range d1) as H1.
  pose proof (low_nibble_range d2) as H2. pose proof (low_nibble_range d3) as H3.
  pose proof (nibbles_value_nibbles _ _ _ _ H0 H1 H2 H3) as Hvalue.
  eexists. split; [| split; [reflexivity | lia]].
  rewrite <- Hvalue. unfold nibbles_value.
  rewrite !index_nonneg by lia.
  change (Some (Z.lor (Z.lor (Z.lor (Z.shiftl (Z.land d0 0xf) 12)
                                    (Z.shiftl (Z.land d1 0xf) 8))
                             (Z.shiftl (Z.land d2 0xf) 4))
                      (Z.land d3 0xf))
          = Some (Z.lor (Z.lor (Z.lor (Z.shiftl (Z.land (Z.land d0 0xf) 0xf) 12)
                                      (Z.shiftl (Z.land (Z.land d1 0xf) 0xf) 8))
                               (Z.shiftl (Z.land (Z.land d2 0xf) 0xf) 4))
                        (Z.land (Z.land d3 0xf) 0xf))).
  rewrite !(land_nibble (Z.land _ 0xf)) by apply low_nibble_range.
  reflexivity.
Qed.

Lemma nibbles_value_short (data : bytes) :
  (length data < 4)%nat -> nibbles_value data = None.
Proof.
  intros Hlen.
  destruct data as [| d0 [| d1 [| d2 [| d3 tl]]]]; cbn [length] in Hlen;
    first [reflexivity | lia].
Qed.

(** ** Short inquiry payloads *)

Lemma short_test response n :
  shorter_than response n -> falsy response || (len response <? n) = true.
Proof.
  destruct response as [[| b0 b] |]; cbn [shorter_than falsy len orb];
    try reflexivity.
  intros Hshort. apply Z.ltb_lt. exact Hshort.
Qed.

Lemma long_test response n :
  0 < n -> shorter_than response n -> negb (falsy response) && (n <=? len response) = false.
Proof.
  intros Hn.
  destruct response as [[| b0 b] |]; cbn [shorter_than falsy len negb andb];
    try reflexivity.
  intros Hshort. apply Z.leb_gt. exact Hshort.
Qed.

Lemma get_pantilt_position_short self response self' :
  _send_command "06 12" true self = (Return response, self') ->
  shorter_than response 8 ->
  get_pantilt_position self = (Raise position_limit, self').
Proof.
  intros Hrun Hshort. unfold get_pantilt_position, bind. rewrite Hrun.
  rewrite (short_test _ _ Hshort). reflexivity.
Qed.

Lemma get_zoom_position_short self response self' :
  _send_command "04 47" true self = (Return response, self') ->
  shorter_than response 4 ->
  get_zoom_position self = (Raise position_limit, self').
Proof.
  intros Hrun Hshort. unfold get_zoom_position, bind. rewrite Hrun.
  rewrite (short_test _ _ Hshort). reflexivity.
Qed.

Lemma get_focus_mode_short self response self' :
  _send_command "04 38" true self = (Return response, self') ->
  shorter_than response 1 ->
  get_focus_mode self = (Return "unknown", self').
Proof.
  intros Hrun Hshort. unfold get_focus_mode, bind. rewrite Hrun.
  rewrite (long_test _ 1 ltac:(lia) Hshort). reflexivity.
Qed.

Lemma get_power_status_short self response self' :
  _send_command "04 00" true self = (Return response, self') ->
  shorter_than response 1 ->
  get_power_status self = (Return false, self').
Proof.
  intros Hrun Hshort. unfold get_power_status, bind. rewrite Hrun.
  rewrite (long_test _ 1 ltac:(lia) Hshort). reflexivity.
Qed.

(** Against C7 as stated: with no reply at all, the focus and the power
    inquiries raise nothing; they return their fallback. *)
Lemma focus_power_absent_reply_no_exception :
  fst (get_focus_mode silent_camera) = Return "unknown"
  /\ fst (get_power_status silent_camera) = Return false
  /\ ~ (exists e self', get_focus_mode silent_camera = (Raise e, self'))
  /\ ~ (exists e self', get_power_status silent_camera = (Raise e, self')).
Proof.
  split; [reflexivity |]. split; [reflexivity |].
  split; intros (e & self' & Hraise);
    apply (f_equal fst) in Hraise; vm_compute in Hraise; discriminate Hraise.
Qed.

Lemma present_test (data : bytes) (n : Z) :
  0 < n -> n <= Z.of_nat (length data) ->
  falsy (Some data) || (len (Some data) <? n) = false
  /\ negb (falsy (Some data)) && (n <=? len (Some data)) = true.
Proof.
  intros Hn Hlen.
  destruct data as [| b0 data]; [cbn [length] in Hlen; lia |].
  cbn [falsy len negb orb andb]. split; [apply Z.ltb_ge | apply Z.leb_le]; exact Hlen.
Qed.

(** With eight bytes or more, [get_pantilt_position] decodes the first
    four and the next four. *)
Lemma get_pantilt_position_long self data self' :
  _send_command "06 12" true self = (Return (Some data), self') ->
  (8 <= length data)%nat ->
  exists pan tilt,
    decode_position (take 4 data) = Some pan
    /\ decode_position (take 4 (drop 4 data)) = Some tilt
    /\ get_pantilt_position self = (Return (pan, tilt), self').
Proof.
  intros Hrun Hlen. unfold get_pantilt_position, bind. rewrite Hrun.
  destruct (present_test data 8 ltac:(lia) ltac:(lia)) as [-> _].
  cbn [default from_option]. unfold id.
  rewrite (slice_within data 0 4), (slice_within data 4 8) by lia.
  change (Z.to_nat (4 - 0)) with 4%nat. change (Z.to_nat (8 - 4)) with 4%nat.
  change (Z.to_nat 0) with 0%nat. change (Z.to_nat 4) with 4%nat.
  destruct data as [| d0 [| d1 [| d2 [| d3 [| d4 [| d5 [| d6 [| d7 tl]]]]]]]];
    cbn [length] in Hlen; try lia.
  cbn [take drop]. unfold decode_position.
  destruct (nibbles_value_low d0 d1 d2 d3 []) as (u & -> & _ & _).
  destruct (nibbles_value_low d4 d5 d6 d7 (take 0 tl)) as (w & -> & _ & _).
  cbn [mbind option_bind]. eexists. eexists. repeat split.
Qed.

(** With four bytes or more, [get_zoom_position] gives the value of the
    first four. *)
Lemma get_zoom_position_long self data self' :
  _send_command "04 47" true self = (Return (Some data), self') ->
  (4 <= length data)%nat ->
  exists value,
    nibbles_value data = Some value
    /\ get_zoom_position self = (Return value, self').
Proof.
  intros Hrun Hlen. unfold get_zoom_position, bind. rewrite Hrun.
  destruct (present_test data 4 ltac:(lia) ltac:(lia)) as [-> _].
  cbn [default from_option]. unfold id.
  destruct data as [| d0 [| d1 [| d2 [| d3 tl]]]]; cbn [length] in Hlen; try lia.
  destruct (nibbles_value_low d0 d1 d2 d3 tl) as (u & Hvalue & _ & _).
  rewrite Hvalue. exists u. split; reflexivity.
Qed.

(** With one byte or more, [get_focus_mode] reads the last. *)
Lemma get_focus_mode_last self init last self' :
  _send_command "04 38" true self = (Return (Some (init ++ [last])%list), self') ->
  get_focus_mode self
  = (Return (if last =? 0x02 then "auto"
             else if last =? 0x03 then "manual" else "unknown"), self').
Proof.
  intros Hrun. unfold get_focus_mode, bind. rewrite Hrun.
  destruct (present_test (init ++ [last]) 1 ltac:(lia)
              ltac:(rewrite length_app; cbn [length]; lia)) as [_ ->].
  cbn [default from_option]. unfold id. rewrite index_last.
  destruct (Z.eqb_spec last 0x02) as [-> | Hnot2]; [reflexivity |].
  destruct (Z.eqb_spec last 0x03) as [-> | Hnot3]; [reflexivity |].
  destruct last as [| [[p | p |] | [p | p |] |] | p]; first [reflexivity | contradiction].
Qed.

(** With one byte or more, [get_power_status] reads the last. *)
Lemma get_power_status_last self init last self' :
  _send_command "04 00" true self = (Return (Some (init ++ [last])%list), self') ->
  get_power_status self = (Return (last =? 0x02), self').
Proof.
  intros Hrun. unfold get_power_status, bind. rewrite Hrun.
  destruct (present_test (init ++ [last]) 1 ltac:(lia)
              ltac:(rewrite length_app; cbn [length]; lia)) as [_ ->].
  cbn [default from_option]. unfold id. rewrite index_last. reflexivity.
Qed.

(** C7, amended. [get_pantilt_position] needs 8 bytes from the exchange
    and [get_zoom_position] 4: handed fewer, or nothing, they raise
    [ViscaException]; handed that many or more, they decode the first 8,
    the first 4.  [get_focus_mode] and [get_power_status] need one byte
    but do not raise without it: handed nothing or no byte they return
    ['unknown'] and [False]; handed one byte or more they read the last,
    02 being ['auto'] and [True], 03 ['manual'], any other ['unknown'],
    and any but 02 [False]. *)
Theorem short_payload_outcome (self : TcpCamera) :
  (forall response self',
      _send_command "06 12" true self = (Return response, self') ->
      shorter_than response 8 ->
      exists code description,
        get_pantilt_position self = (Raise (ViscaException code description), self'))
  /\ (forall response self',
        _send_command "04 47" true self = (Return response, self') ->
        shorter_than response 4 ->
        exists code description,
          get_zoom_position self = (Raise (ViscaException code description), self'))
  /\ (forall response self',
        _send_command "04 38" true self = (Return response, self') ->
        shorter_than response 1 ->
        get_focus_mode self = (Return "unknown", self'))
  /\ (forall response self',
        _send_command "04 00" true self = (Return response, self') ->
        shorter_than response 1 ->
        get_power_status self = (Return false, self'))
  /\ (forall data self',
        _send_command "06 12" true self = (Return (Some data), self') ->
        (8 <= length data)%nat ->
        exists pan tilt,
          decode_position (take 4 data) = Some pan
          /\ decode_position (take 4 (drop 4 data)) = Some tilt
          /\ get_pantilt_position self = (Return (pan, tilt), self'))
  /\ (forall data self',
        _send_command "04 47" true self = (Return (Some data), self') ->
        (4 <= length data)%nat ->
        exists value,
          nibbles_value data = Some value
          /\ get_zoom_position self = (Return value, self'))
  /\ (forall init last self',
        _send_command "04 38" true self = (Return (Some (init ++ [last])%list), self') ->
        get_focus_mode self
        = (Return (if last =? 0x02 then "auto"
                   else if last =? 0x03 then "manual" else "unknown"), self'))
  /\ (forall init last self',
        _send_command "04 00" true self = (Return (Some (init ++ [last])%list), self') ->
        get_power_status self = (Return (last =? 0x02), self')).
Proof.
  split; [| split; [| split; [| split; [| split; [| split; [| split]]]]]].
  - intros response self' Hrun Hshort. eexists. eexists.
    apply (get_pantilt_position_short _ _ _ Hrun Hshort).
  - intros response self' Hrun Hshort. eexists. eexists.
    apply (get_zoom_position_short _ _ _ Hrun Hshort).
  - intros response self' Hrun Hshort.
    apply (get_focus_mode_short _ _ _ Hrun Hshort).
  - intros response self' Hrun Hshort.
    apply (get_power_status_short _ _ _ Hrun Hshort).
  - intros data self' Hrun Hlen. apply (get_pantilt_position_long _ _ _ Hrun Hlen).
  - intros data self' Hrun Hlen. apply (get_zoom_position_long _ _ _ Hrun Hlen).
  - intros init last self' Hrun. apply (get_focus_mode_last _ _ _ _ Hrun).
  - intros init last self' Hrun. apply (get_power_status_last _ _ _ _ Hrun).
Qed.

(** The inquiries on a camera that never answers, on one that answers a
    zoom inquiry with three nibbles only, and on the replies of the test
    suite. *)
Lemma short_payload_outcome_witness :
  (exists code description self',
      get_pantilt_position silent_camera = (Raise (ViscaException code description), self'))
  /\ (exists code description self',
        get_zoom_position (connected [0x90; 0x50; 0x01; 0x02; 0x03; 0xFF])
        = (Raise (ViscaException code description), self'))
  /\ (exists self', get_focus_mode silent_camera = (Return "unknown", self'))
  /\ (exists self', get_power_status silent_camera = (Return false, self'))
  /\ (exists self',
        get_pantilt_position
          (connected [0x90; 0x50; 0x00; 0x01; 0x02; 0x03; 0x0F; 0x0E; 0x05; 0x00; 0xFF])
        = (Return (0x0123, -432), self'))
  /\ (exists self',
        get_zoom_position (connected [0x90; 0x50; 0x01; 0x02; 0x03; 0x04; 0xFF])
        = (Return 0x1234, self'))
  /\ (exists self',
        get_focus_mode (connected [0x90; 0x50; 0x02; 0xFF]) = (Return "auto", self'))
  /\ (exists self',
        get_focus_mode (connected [0x90; 0x50; 0x03; 0xFF]) = (Return "manual", self'))
  /\ (exists self',
        get_power_status (connected [0x90; 0x50; 0x02; 0xFF]) = (Return true, self'))
  /\ (exists self',
        get_power_status (connected [0x90; 0x50; 0x03; 0xFF]) = (Return false, self')).
Proof.
  split; [| split; [| split; [| split; [| split; [| split; [| split; [| split; [| split]]]]]]]].
  - destruct (short_payload_outcome silent_camera) as (Hpt & _).
    destruct (Hpt None (snd (_send_command "06 12" true silent_camera)))
      as (code & description & Hraise); [reflexivity | exact I |].
    exists code, description. eexists. exact Hraise.
  - destruct (short_payload_outcome (connected [0x90; 0x50; 0x01; 0x02; 0x03; 0xFF]))
      as (_ & Hzoom & _).
    destruct (Hzoom (Some [0x01; 0x02; 0x03])
                (snd (_send_command "04 47" true
                        (connected [0x90; 0x50; 0x01; 0x02; 0x03; 0xFF]))))
      as (code & description & Hraise); [reflexivity | simpl; lia |].
    exists code, description. eexists. exact Hraise.
  - destruct (short_payload_outcome silent_camera) as (_ & _ & Hfocus & _).
    eexists.
    apply (Hfocus None (snd (_send_command "04 38" true silent_camera)));
      [reflexivity | exact I].
  - destruct (short_payload_outcome silent_camera) as (_ & _ & _ & Hpower & _).
    eexists.
    apply (Hpower None (snd (_send_command "04 00" true silent_camera)));
      [reflexivity | exact I].
  - destruct (short_payload_outcome
                (connected [0x90; 0x50; 0x00; 0x01; 0x02; 0x03; 0x0F; 0x0E; 0x05; 0x00; 0xFF]))
      as (_ & _ & _ & _ & Hpt & _).
    destruct (Hpt [0x00; 0x01; 0x02; 0x03; 0x0F; 0x0E; 0x05; 0x00]
                (snd (_send_command "06 12" true
                        (connected
                           [0x90; 0x50; 0x00; 0x01; 0x02; 0x03; 0x0F; 0x0E; 0x05; 0x00; 0xFF]))))
      as (pan & tilt & Hpan & Htilt & Hrun); [reflexivity | simpl; lia |].
    vm_compute in Hpan. vm_compute in Htilt.
    injection Hpan as <-. injection Htilt as <-.
    eexists. exact Hrun.
  - destruct (short_payload_outcome (connected [0x90; 0x50; 0x01; 0x02; 0x03; 0x04; 0xFF]))
      as (_ & _ & _ & _ & _ & Hzoom & _).
    destruct (Hzoom [0x01; 0x02; 0x03; 0x04]
                (snd (_send_command "04 47" true
                        (connected [0x90; 0x50; 0x01; 0x02; 0x03; 0x04; 0xFF]))))
      as (value & Hvalue & Hrun); [reflexivity | simpl; lia |].
    vm_compute in Hvalue. injection Hvalue as <-.
    eexists. exact Hrun.
  - destruct (short_payload_outcome (connected [0x90; 0x50; 0x02; 0xFF]))
      as (_ & _ & _ & _ & _ & _ & Hfocus & _).
    eexists.
    apply (Hfocus [] 0x02 (snd (_send_command "04 38" true (connected [0x90; 0x50; 0x02; 0xFF])))).
    reflexivity.
  - destruct (short_payload_outcome (connected [0x90; 0x50; 0x03; 0xFF]))
      as (_ & _ & _ & _ & _ & _ & Hfocus & _).
    eexists.
    apply (Hfocus [] 0x03 (snd (_send_command "04 38" true (connected [0x90; 0x50; 0x03; 0xFF])))).
    reflexivity.
  - destruct (short_payload_outcome (connected [0x90; 0x50; 0x02; 0xFF]))
      as (_ & _ & _ & _ & _ & _ & _ & Hpower).
    eexists.
    apply (Hpower [] 0x02 (snd (_send_command "04 00" true (connected [0x90; 0x50; 0x02; 0xFF])))).
    reflexivity.
  - destruct (short_payload_outcome (connected [0x90; 0x50; 0x03; 0xFF]))
      as (_ & _ & _ & _ & _ & _ & _ & Hpower).
    eexists.
    apply (Hpower [] 0x03 (snd (_send_command "04 00" true (connected [0x90; 0x50; 0x03; 0xFF])))).
    reflexivity.
Defined.

(** C9. A payload shorter than 8 bytes in [get_pantilt_position], or
    shorter than 4 in [get_zoom_position], raises [ViscaException] with
    status code 0x76 and the description 'Position limit exceeded or
    command blocked', the third byte of either message literal being
    0x76; the device's own error reply of code 0x76 raises the very same
    exception. *)
Theorem malformed_response_is_error_0x76 (self : TcpCamera) :
  bytes_of_string "Invalid pan/tilt response" !! 2%nat = Some 0x76
  /\ bytes_of_string "Invalid zoom response" !! 2%nat = Some 0x76
  /\ (forall response self',
        _send_command "06 12" true self = (Return response, self') ->
        shorter_than response 8 ->
        get_pantilt_position self
        = (Raise (ViscaException 0x76 "Position limit exceeded or command blocked"),
           self'))
  /\ (forall response self',
        _send_command "04 47" true self = (Return response, self') ->
        shorter_than response 4 ->
        get_zoom_position self
        = (Raise (ViscaException 0x76 "Position limit exceeded or command blocked"),
           self'))
  /\ (forall s x rest,
        _sock self = Some s ->
        sk_send_raises s = None ->
        0 <= x < 16 ->
        drain (sk_incoming s) = RecvData [0x90; 0x60 + x; 0x76; 0xFF] :: rest ->
        exists self1 self2,
          get_pantilt_position self
          = (Raise (ViscaException 0x76 "Position limit exceeded or command blocked"),
             self1)
          /\ get_zoom_position self
             = (Raise (ViscaException 0x76 "Position limit exceeded or command blocked"),
                self2)).
Proof.
  split; [reflexivity |]. split; [reflexivity |].
  split; [intros response self' Hrun Hshort;
          apply (get_pantilt_position_short _ _ _ Hrun Hshort) |].
  split; [intros response self' Hrun Hshort;
          apply (get_zoom_position_short _ _ _ Hrun Hshort) |].
  intros s x rest Hsock Hsend Hx Hdrain.
  assert (Hpt : command_bytes_of "06 12" true = inr [0x81; 0x09; 0x06; 0x12; 0xFF])
    by reflexivity.
  assert (Hzoom : command_bytes_of "04 47" true = inr [0x81; 0x09; 0x04; 0x47; 0xFF])
    by reflexivity.
  pose proof (_send_command_reply self s _ _ _ Hsock Hsend Hpt _ rest Hdrain) as Hrun1.
  pose proof (_send_command_reply self s _ _ _ Hsock Hsend Hzoom _ rest Hdrain) as Hrun2.
  assert (Hmask : (Z.land (0x60 + x) 0xF0 =? 0x60) = true).
  { clear - Hx. revert x Hx. apply nibble_cases; reflexivity. }
  eexists. eexists. split.
  - unfold get_pantilt_position, bind. rewrite Hrun1.
    change (Py.index [0x90; 0x60 + x; 0x76; 0xFF] 1) with (Some (0x60 + x)).
    cbv beta iota. rewrite Hmask. reflexivity.
  - unfold get_zoom_position, bind. rewrite Hrun2.
    change (Py.index [0x90; 0x60 + x; 0x76; 0xFF] 1) with (Some (0x60 + x)).
    cbv beta iota. rewrite Hmask. reflexivity.
Qed.

(** A zoom inquiry answered with three nibbles only, and a pan/tilt
    inquiry answered with the device's error 0x76: the same exception. *)
Lemma malformed_response_is_error_0x76_witness :
  (exists self',
      get_zoom_position (connected [0x90; 0x50; 0x01; 0x02; 0x03; 0xFF])
      = (Raise (ViscaException 0x76 "Position limit exceeded or command blocked"), self'))
  /\ (exists self',
        get_pantilt_position (connected [0x90; 0x60; 0x76; 0xFF])
        = (Raise (ViscaException 0x76 "Position limit exceeded or command blocked"), self')).
Proof.
  split.
  - destruct (malformed_response_is_error_0x76
                (connected [0x90; 0x50; 0x01; 0x02; 0x03; 0xFF]))
      as (_ & _ & _ & Hzoom & _).
    eexists.
    apply (Hzoom (Some [0x01; 0x02; 0x03])
             (snd (_send_command "04 47" true
                     (connected [0x90; 0x50; 0x01; 0x02; 0x03; 0xFF]))));
      [reflexivity | simpl; lia].
  - destruct (malformed_response_is_error_0x76 (connected [0x90; 0x60; 0x76; 0xFF]))
      as (_ & _ & _ & _ & Hdevice).
    destruct (Hdevice (settimeout 2 (mock_socket [0x90; 0x60; 0x76; 0xFF])) 0 [])
      as (self1 & self2 & Hpt & _); [reflexivity | reflexivity | lia | reflexivity |].
    exists self1. exact Hpt.
Defined.

(** ** Absolute zoom *)

(** The digits [format] prints for an unsigned 16-bit value: as many
    as the value needs. *)
Lemma hex_magnitude_word p :
  0 <= p < 65536 ->
  Py.hex_magnitude p =
    if p <? 16 then String (Py.hex_digit (p mod 16)) ""
    else if p <? 256 then
      String (Py.hex_digit (p / 16 mod 16)) (String (Py.hex_digit (p mod 16)) "")
    else if p <? 4096 then
      String (Py.hex_digit (p / 256 mod 16))
        (String (Py.hex_digit (p / 16 mod 16)) (String (Py.hex_digit (p mod 16)) ""))
    else
      String (Py.hex_digit (p / 4096 mod 16))
        (String (Py.hex_digit (p / 256 mod 16))
           (String (Py.hex_digit (p / 16 mod 16)) (String (Py.hex_digit (p mod 16)) ""))).
Proof.
  intros Hp. unfold Py.hex_magnitude. rewrite Z.abs_eq by lia. cbv zeta.
  destruct (Z.ltb_spec p 16) as [H16 | H16].
  { cbn [Py.hex_digits]. rewrite (proj2 (Z.ltb_lt p 16) H16). reflexivity. }
  assert (Hlog : 4 <= Z.log2 p) by (apply (Z.log2_le_mono 16 p); lia).
  destruct (Z.to_nat (Z.log2 p)) as [| [| [| [| fuel]]]] eqn:Hfuel; try lia.
  replace (p / 256) with (p / 16 / 16) by (rewrite Z.div_div by lia; reflexivity).
  replace (p / 4096) with (p / 16 / 16 / 16) by (rewrite !Z.div_div by lia; reflexivity).
  cbn [Py.hex_digits].
  rewrite (proj2 (Z.ltb_ge p 16) H16).
  destruct (Z.ltb_spec p 256) as [H256 | H256].
  { replace (p / 16 <? 16) with true
      by (symmetry; apply Z.ltb_lt, Z.div_lt_upper_bound; lia).
    reflexivity. }
  replace (p / 16 <? 16) with false
    by (symmetry; apply Z.ltb_ge, Z.div_le_lower_bound; lia).
  destruct (Z.ltb_spec p 4096) as [H4096 | H4096].
  { replace (p / 16 / 16 <? 16) with true
      by (symmetry; rewrite Z.div_div by lia; apply Z.ltb_lt, Z.div_lt_upper_bound; lia).
    reflexivity. }
  replace (p / 16 / 16 <? 16) with false
    by (symmetry; rewrite Z.div_div by lia; apply Z.ltb_ge, Z.div_le_lower_bound; lia).
  replace (p / 16 / 16 / 16 <? 16) with true
    by (symmetry; rewrite !Z.div_div by lia; apply Z.ltb_lt, Z.div_lt_upper_bound; lia).
  reflexivity.
Qed.

(** Four digits for an unsigned 16-bit value. *)
Lemma format_04x_word p :
  0 <= p < 65536 ->
  Py.format_04x p
  = String (Py.hex_digit (p / 4096)) (String (Py.hex_digit (p / 256 mod 16))
      (String (Py.hex_digit (p / 16 mod 16)) (String (Py.hex_digit (p mod 16)) ""))).
Proof.
  intros Hp. unfold Py.format_04x, Py.format_0x.
  rewrite (hex_magnitude_word p Hp).
  replace (p <? 0) with false by (symmetry; apply Z.ltb_ge; lia).
  destruct (Z.ltb_spec p 16) as [H16 | H16].
  { rewrite (Z.div_small p 4096), (Z.div_small p 256), (Z.div_small p 16) by lia.
    reflexivity. }
  destruct (Z.ltb_spec p 256) as [H256 | H256].
  { rewrite (Z.div_small p 4096), (Z.div_small p 256) by lia. reflexivity. }
  destruct (Z.ltb_spec p 4096) as [H4096 | H4096].
  { rewrite (Z.div_small p 4096) by lia. reflexivity. }
  rewrite (Z.mod_small (p / 4096) 16)
    by (split; [apply Z.div_pos; lia | apply Z.div_lt_upper_bound; lia]).
  reflexivity.
Qed.

Lemma zoom_to_frame p :
  0 <= p < 65536 ->
  command_bytes_of
    ("04 47 " +:+ Py.join " " (map (fun c => "0" +:+ c) (Py.chars (Py.format_04x p))))
    false
  = inr [0x81; 0x01; 0x04; 0x47;
         p / 4096; p / 256 mod 16; p / 16 mod 16; p mod 16; 0xFF].
Proof.
  intros Hp. rewrite (format_04x_word p Hp).
  assert (H3 : 0 <= p / 4096 < 16)
    by (split; [apply Z.div_pos; lia | apply Z.div_lt_upper_bound; lia]).
  assert (H2 : 0 <= p / 256 mod 16 < 16) by (apply Z.mod_pos_bound; lia).
  assert (H1 : 0 <= p / 16 mod 16 < 16) by (apply Z.mod_pos_bound; lia).
  assert (H0 : 0 <= p mod 16 < 16) by (apply Z.mod_pos_bound; lia).
  unfold command_bytes_of.
  cbn [Py.chars map Py.join]. cbv [append].
  cbn [Py.remove_spaces Ascii.eqb Bool.eqb].
  rewrite !hex_digit_not_blank by assumption.
  unfold Py.fromhex. repeat fromhex_step. cbn [Py.fromhex_from].
  rewrite !Z.mul_0_l, !Z.add_0_l. reflexivity.
Qed.

(** Rounding stays within integer bounds. *)
Lemma round_bounds (x : Q) (lo hi : Z) :
  (inject_Z lo <= x)%Q -> (x <= inject_Z hi)%Q -> lo <= Py.round x <= hi.
Proof.
  intros Hlo Hhi. unfold Py.round.
  assert (Hf_lo : lo <= Qfloor x).
  { rewrite <- (Qfloor_Z lo). apply Qfloor_resp_le. exact Hlo. }
  assert (Hf_hi : Qfloor x <= hi).
  { rewrite <- (Qfloor_Z hi). apply Qfloor_resp_le. exact Hhi. }
  assert (Hnext : Qfloor x < hi \/ Qfloor x = hi) by lia.
  destruct Hnext as [Hlt | Heq].
  - destruct (Qcompare (x - inject_Z (Qfloor x)) (1 # 2));
      [destruct (Z.even (Qfloor x)) | |]; lia.
  - assert (Hfrac : (x - inject_Z (Qfloor x) < 1 # 2)%Q).
    { rewrite Heq.
      apply Qle_lt_trans with (y := 0%Q); [| reflexivity].
      apply (Qplus_le_l _ _ (inject_Z hi)). ring_simplify. exact Hhi. }
    destruct (Qcompare_spec (x - inject_Z (Qfloor x)) (1 # 2)) as [Heq' | Hlt' | Hgt'].
    + rewrite Heq' in Hfrac. apply Qlt_irrefl in Hfrac. contradiction.
    + lia.
    + exfalso. apply (Qlt_irrefl (1 # 2)). apply Qlt_trans with (1 := Hgt'). exact Hfrac.
Qed.

(** A value rounds to an integer less than one away from it. *)
Lemma round_within (x : Q) :
  (inject_Z (Py.round x - 1) <= x)%Q /\ (x <= inject_Z (Py.round x + 1))%Q.
Proof.
  pose proof (Qfloor_le x) as Hfloor. pose proof (Qlt_floor x) as Hnext.
  assert (Hround : Py.round x = Qfloor x \/ Py.round x = Qfloor x + 1).
  { unfold Py.round.
    destruct (Qcompare (x - inject_Z (Qfloor x)) (1 # 2));
      [destruct (Z.even (Qfloor x)) | |]; auto. }
  split.
  - apply Qle_trans with (y := inject_Z (Qfloor x)); [| exact Hfloor].
    rewrite <- Zle_Qle. lia.
  - apply Qlt_le_weak. apply Qlt_le_trans with (y := inject_Z (Qfloor x + 1));
      [exact Hnext |].
    rewrite <- Zle_Qle. lia.
Qed.

(** A value that rounds into a range far below the largest float is a
    finite float. *)
Lemma finite_of_round (x : Q) (lo hi : Z) :
  lo <= Py.round x <= hi -> -65536 <= lo -> hi <= 65536 -> Py.finite x = Some x.
Proof.
  intros Hround Hlo Hhi. unfold Py.finite.
  destruct (Qle_bool (inject_Z Py.float_limit) (Qabs x)) eqn:Hlimit; [| reflexivity].
  exfalso. apply Qle_bool_iff in Hlimit.
  destruct (round_within x) as [Hbelow Habove].
  assert (Habs : (Qabs x <= inject_Z 65537)%Q).
  { apply Qabs_Qle_condition. split.
    - apply Qle_trans with (y := inject_Z (Py.round x - 1)); [| exact Hbelow].
      change (- inject_Z 65537)%Q with (inject_Z (-65537)).
      rewrite <- Zle_Qle. lia.
    - apply Qle_trans with (y := inject_Z (Py.round x + 1)); [exact Habove |].
      rewrite <- Zle_Qle. lia. }
  pose proof (Qle_trans _ _ _ Hlimit Habs) as Hle.
  rewrite <- Zle_Qle in Hle.
  assert (Hbig : 65537 < Py.float_limit) by (vm_compute; reflexivity).
  lia.
Qed.

(** Against C8 as stated: at position 4.0 the scaled value is 65536,
    beyond 16 bits, and the frame carries five nibble bytes, so it is not
    a frame of four. *)
Lemma zoom_to_beyond_16_bits :
  let self' := snd (zoom_to 4 (connected [0x90; 0x41; 0xFF; 0x90; 0x51; 0xFF])) in
  Py.round (4 * 16384) = 65536
  /\ sent self'
     = [[0x81; 0x01; 0x04; 0x47; 0x01; 0x00; 0x00; 0x00; 0x00; 0xFF]]
  /\ ~ (exists n3 n2 n1 n0,
           sent self' = [[0x81; 0x01; 0x04; 0x47; n3; n2; n1; n0; 0xFF]]).
Proof.
  split; [reflexivity |]. split; [reflexivity |].
  intros (n3 & n2 & n1 & n0 & Hsent). vm_compute in Hsent. discriminate Hsent.
Qed.

(** C8, amended. For a position whose scaled value
    [round(position * 16384)] is within 16 bits, [zoom_to] hands to
    [send] the frame 81 01 04 47, then four bytes that each carry one
    nibble of the scaled value in the low half, most significant first,
    then FF.  A position between 0.0 and 1.0 is such a position, its
    scaled value being at most 16384. *)
Theorem zoom_to_sends
    (self : TcpCamera) (s : socket) (position : Q) (p : Z) :
  _sock self = Some s ->
  sk_send_raises s = None ->
  p = Py.round (position * 16384) ->
  0 <= p <= 0xFFFF ->
  (exists (result : outcome unit) (s' : socket),
      zoom_to position self = (result, set_sock (Some s') self)
      /\ sk_sent s'
         = (sk_sent s
            ++ [[0x81; 0x01; 0x04; 0x47;
                 p / 4096; p / 256 mod 16; p / 16 mod 16; p mod 16; 0xFF]])%list)
  /\ Forall (fun b => 0 <= b < 16) [p / 4096; p / 256 mod 16; p / 16 mod 16; p mod 16]
  /\ nibbles_value [p / 4096; p / 256 mod 16; p / 16 mod 16; p mod 16] = Some p
  /\ ((0 <= position)%Q -> (position <= 1)%Q -> p <= 16384).
Proof.
  intros Hsock Hsend Hp Hrange.
  assert (H3 : 0 <= p / 4096 < 16)
    by (split; [apply Z.div_pos; lia | apply Z.div_lt_upper_bound; lia]).
  assert (H2 : 0 <= p / 256 mod 16 < 16) by (apply Z.mod_pos_bound; lia).
  assert (H1 : 0 <= p / 16 mod 16 < 16) by (apply Z.mod_pos_bound; lia).
  assert (H0 : 0 <= p mod 16 < 16) by (apply Z.mod_pos_bound; lia).
  split; [| split; [| split]].
  - unfold zoom_to.
    rewrite (finite_of_round (position * 16384) 0 0xFFFF) by (try rewrite <- Hp; lia).
    unfold zoom_to_int. cbv zeta. rewrite <- Hp.
    apply (action_sends self s _ _ Hsock Hsend).
    apply zoom_to_frame. lia.
  - repeat (apply Forall_cons; split; [assumption |]). apply Forall_nil. trivial.
  - rewrite nibbles_value_nibbles by assumption. f_equal.
    pose proof (Z.div_mod p 16). pose proof (Z.div_mod (p / 16) 16).
    pose proof (Z.div_mod (p / 256) 16).
    replace (p / 4096) with (p / 256 / 16) by (rewrite Z.div_div by lia; reflexivity).
    replace (p / 256) with (p / 16 / 16) in * by (rewrite Z.div_div by lia; reflexivity).
    lia.
  - intros Hlo Hhi. rewrite Hp.
    apply (round_bounds (position * 16384) 0 16384).
    + change (inject_Z 0) with (0 * 16384)%Q. apply Qmult_le_compat_r; [exact Hlo | discriminate].
    + change (inject_Z 16384) with (1 * 16384)%Q.
      apply Qmult_le_compat_r; [exact Hhi | discriminate].
Qed.

(** [zoom_to(1.0)] sends 81 01 04 47 04 00 00 00 FF. *)
Lemma zoom_to_sends_witness :
  exists (result : outcome unit) (s' : socket),
    zoom_to 1 (connected [0x90; 0x41; 0xFF; 0x90; 0x51; 0xFF])
    = (result, set_sock (Some s') (connected [0x90; 0x41; 0xFF; 0x90; 0x51; 0xFF]))
    /\ sk_sent s' = [[0x81; 0x01; 0x04; 0x47; 0x04; 0x00; 0x00; 0x00; 0xFF]].
Proof.
  destruct (zoom_to_sends
              (connected [0x90; 0x41; 0xFF; 0x90; 0x51; 0xFF])
              (settimeout 2 (mock_socket [0x90; 0x41; 0xFF; 0x90; 0x51; 0xFF]))
              1 16384) as [Hsends _].
  - reflexivity.
  - reflexivity.
  - reflexivity.
  - lia.
  - exact Hsends.
Defined.

(** ** Focus mode *)

(** A well-formed command never makes the exchange raise [ValueError]. *)
Lemma _send_command_no_ValueError self command_hex query command_bytes :
  command_bytes_of command_hex query = inr command_bytes ->
  forall msg self', _send_command command_hex query self <> (Raise (ValueError msg), self').
Proof.
  intros Hcommand msg self'.
  destruct (_sock self) as [s |] eqn:Hsock.
  - destruct (sk_send_raises s) as [err |] eqn:Hsend.
    + unfold command_bytes_of in Hcommand.
      unfold _send_command. rewrite Hsock.
      unfold bind at 1. unfold _flush_input. rewrite Hsock. rewrite Hcommand.
      unfold bind at 1. unfold sock_send. cbn [_sock set_sock].
      unfold send. cbn [sk_send_raises settimeout setblocking set_incoming].
      rewrite Hsend. discriminate.
    + destruct (drain (sk_incoming s)) as [| [reply | | | err] rest] eqn:Hdrain.
      * rewrite (_send_command_timeout self s command_hex query command_bytes
                   Hsock Hsend Hcommand []) by (left; split; [exact Hdrain | reflexivity]).
        discriminate.
      * rewrite (_send_command_reply self s command_hex query command_bytes
                   Hsock Hsend Hcommand reply rest Hdrain).
        destruct reply as [| b0 reply']; [discriminate |].
        destruct ((3 <=? Z.of_nat (length (b0 :: reply')))
                  && match Py.index (b0 :: reply') 1 with
                     | Some b => Z.land b 0xF0 =? 0x60
                     | None => false
                     end); [unfold ViscaException_init; discriminate |].
        destruct (query && (3 <? Z.of_nat (length (b0 :: reply')))); discriminate.
      * unfold command_bytes_of in Hcommand.
        unfold _send_command. rewrite Hsock.
        unfold bind at 1. unfold _flush_input. rewrite Hsock. rewrite Hcommand.
        unfold bind at 1. unfold sock_send. cbn [_sock set_sock].
        unfold send. cbn [sk_send_raises settimeout setblocking set_incoming].
        rewrite Hsend.
        unfold bind at 1. unfold sock_recv. cbn [_sock set_sock].
        unfold recv. cbn [sk_incoming settimeout setblocking set_incoming].
        rewrite Hdrain. discriminate.
      * rewrite (_send_command_timeout self s command_hex query command_bytes
                   Hsock Hsend Hcommand rest) by (right; exact Hdrain).
        discriminate.
      * unfold command_bytes_of in Hcommand.
        unfold _send_command. rewrite Hsock.
        unfold bind at 1. unfold _flush_input. rewrite Hsock. rewrite Hcommand.
        unfold bind at 1. unfold sock_send. cbn [_sock set_sock].
        unfold send. cbn [sk_send_raises settimeout setblocking set_incoming].
        rewrite Hsend.
        unfold bind at 1. unfold sock_recv. cbn [_sock set_sock].
        unfold recv. cbn [sk_incoming settimeout setblocking set_incoming].
        rewrite Hdrain. discriminate.
  - unfold _send_command. rewrite Hsock. discriminate.
Qed.

Lemma focus_frame_command (name : string) (frame : bytes) :
  (name, frame) ∈ focus_frames ->
  exists code,
    modes !! name = Some code
    /\ command_bytes_of ("04 " +:+ code) false = inr frame.
Proof.
  intros Hframe. unfold focus_frames in Hframe.
  repeat (apply elem_of_cons in Hframe as [Hhere | Hframe];
          [inversion Hhere; subst; eexists; split; reflexivity |]).
  apply elem_of_nil in Hframe. contradiction.
Qed.

Lemma known_mode_code (name : string) :
  name ∈ mode_names ->
  exists code command_bytes,
    modes !! name = Some code
    /\ command_bytes_of ("04 " +:+ code) false = inr command_bytes.
Proof.
  intros Hname. unfold mode_names in Hname.
  repeat (apply elem_of_cons in Hname as [-> | Hname];
          [eexists; eexists; split; reflexivity |]).
  apply elem_of_nil in Hname. contradiction.
Qed.

(** C10. [set_focus_mode] compares the lower-case form of its argument:
    when that is one of the five names, in whatever case the argument
    was written, no [ValueError] is raised and the frame of that mode is
    sent; [ValueError] is raised exactly when the lower-case form is none
    of the five. *)
Theorem set_focus_mode_ignores_case (self : TcpCamera) (mode : string) :
  focus_frames.*1 = mode_names
  /\ (Py.lower mode ∈ mode_names ->
      forall msg self', set_focus_mode mode self <> (Raise (ValueError msg), self'))
  /\ (forall frame s,
        (Py.lower mode, frame) ∈ focus_frames ->
        _sock self = Some s ->
        sk_send_raises s = None ->
        exists (result : outcome unit) (s' : socket),
          set_focus_mode mode self = (result, set_sock (Some s') self)
          /\ sk_sent s' = (sk_sent s ++ [frame])%list)
  /\ (Py.lower mode ∉ mode_names ->
      exists msg, set_focus_mode mode self = (Raise (ValueError msg), self)).
Proof.
  split; [reflexivity |].
  split; [| split].
  - intros Hname msg self' Hraise.
    destruct (known_mode_code _ Hname) as (code & command_bytes & Hcode & Hbytes).
    unfold set_focus_mode in Hraise. rewrite Hcode in Hraise.
    unfold bind in Hraise.
    destruct (_send_command ("04 " +:+ code) false self) as [[response | e] self1] eqn:Hrun.
    + discriminate Hraise.
    + injection Hraise as -> ->.
      exact (_send_command_no_ValueError self _ _ _ Hbytes msg self' Hrun).
  - intros frame s Hframe Hsock Hsend.
    destruct (focus_frame_command _ _ Hframe) as (code & Hcode & Hbytes).
    unfold set_focus_mode. rewrite Hcode.
    apply (action_sends self s _ _ Hsock Hsend Hbytes).
  - intros Hname. unfold set_focus_mode.
    rewrite (modes_lookup_None _ Hname). eexists. reflexivity.
Qed.

(** ['One Push TRIGGER'] is taken for ['one push trigger']. *)
Lemma set_focus_mode_ignores_case_witness :
  exists (result : outcome unit) (s' : socket),
    set_focus_mode "One Push TRIGGER" (connected [0x90; 0x41; 0xFF; 0x90; 0x51; 0xFF])
    = (result, set_sock (Some s') (connected [0x90; 0x41; 0xFF; 0x90; 0x51; 0xFF]))
    /\ sk_sent s' = [[0x81; 0x01; 0x04; 0x18; 0x01; 0xFF]].
Proof.
  destruct (set_focus_mode_ignores_case
              (connected [0x90; 0x41; 0xFF; 0x90; 0x51; 0xFF]) "One Push TRIGGER")
    as (_ & _ & Hsends & _).
  apply (Hsends [0x81; 0x01; 0x04; 0x18; 0x01; 0xFF]
           (settimeout 2 (mock_socket [0x90; 0x41; 0xFF; 0x90; 0x51; 0xFF]))).
  - vm_compute. repeat first [apply list_elem_of_here | apply list_elem_of_further].
  - reflexivity.
  - reflexivity.
Defined.

(** * Further properties of the client *)

(** ** Flushing stale input *)

Lemma drain_stale stale stop rest :
  Forall (fun chunk : bytes => chunk <> []) stale ->
  stops_flush stop ->
  drain (map RecvData stale ++ stop :: rest) = rest.
Proof.
  intros Hstale Hstop. induction Hstale as [| chunk stale Hchunk _ IH].
  - destruct stop as [[| b data] | | | msg]; cbn in Hstop |- *;
      first [reflexivity | contradiction].
  - destruct chunk as [| b chunk]; [contradiction |]. cbn. exact IH.
Qed.

(** Input that only ever hands over bytes is consumed whole. *)
Lemma drain_all_stale stale :
  Forall (fun chunk : bytes => chunk <> []) stale ->
  drain (map RecvData stale) = [].
Proof.
  intros Hstale. induction Hstale as [| chunk stale Hchunk _ IH]; [reflexivity |].
  destruct chunk as [| b chunk]; [contradiction |]. cbn. exact IH.
Qed.

(** [_flush_input] reads and drops everything up to and including the
    first [recv] that hands over no bytes or raises; it sends nothing,
    raises nothing, and leaves the socket blocking with the camera's
    timeout. *)
Theorem flush_discards_stale
    (self : TcpCamera) (s : socket) (stale : list bytes)
    (stop : recv_outcome) (rest : list recv_outcome) :
  _sock self = Some s ->
  Forall (fun chunk : bytes => chunk <> []) stale ->
  stops_flush stop ->
  sk_incoming s = (map RecvData stale ++ stop :: rest)%list ->
  exists s',
    _flush_input self = (Return tt, set_sock (Some s') self)
    /\ sk_incoming s' = rest
    /\ sk_sent s' = sk_sent s
    /\ sk_blocking s' = true
    /\ sk_timeout s' = Some (_timeout self)
    /\ sk_closed s' = sk_closed s.
Proof.
  intros Hsock Hstale Hstop Hincoming.
  unfold _flush_input. rewrite Hsock. eexists. split; [reflexivity |].
  cbn [sk_incoming sk_sent sk_blocking sk_timeout sk_closed
       settimeout setblocking set_incoming].
  rewrite Hincoming, (drain_stale _ _ _ Hstale Hstop).
  repeat split.
Qed.

(** Two late chunks of an earlier reply, then the would-block error:
    the reply to come is what is left. *)
Lemma flush_discards_stale_witness :
  let s := {| sk_incoming := [RecvData [0x90; 0x41]; RecvData [0xFF];
                              RecvBlockingIOError; RecvData [0x90; 0x51; 0xFF]];
              sk_sent := []; sk_send_raises := None; sk_close_raises := false;
              sk_blocking := true; sk_timeout := None; sk_closed := false |} in
  exists s',
    _flush_input (set_sock (Some s) cam0) = (Return tt, set_sock (Some s') (set_sock (Some s) cam0))
    /\ sk_incoming s' = [RecvData [0x90; 0x51; 0xFF]]
    /\ sk_sent s' = []
    /\ sk_blocking s' = true
    /\ sk_timeout s' = Some 2%Q
    /\ sk_closed s' = false.
Proof.
  intros s.
  apply (flush_discards_stale (set_sock (Some s) cam0) s
           [[0x90; 0x41]; [0xFF]] RecvBlockingIOError [RecvData [0x90; 0x51; 0xFF]]).
  - reflexivity.
  - repeat (apply Forall_cons; split; [discriminate |]). apply Forall_nil. trivial.
  - exact I.
  - reflexivity.
Defined.

(** ** Operations on a camera that is not connected *)

Lemma _send_command_not_connected self command_hex query :
  _sock self = None ->
  _send_command command_hex query self
  = (Raise (ConnectionError "Not connected. Call connect() first."), self).
Proof. intros Hsock. unfold _send_command. rewrite Hsock. reflexivity. Qed.

(** Without a socket, every operation whose arguments pass its own
    checks raises [ConnectionError] and leaves the camera as it was.
    [zoom_to] does so for every position whose product with 16384 is a
    finite float; for a larger one [round] raises [OverflowError] before
    the connection is looked at. *)
Theorem operations_need_connection (self : TcpCamera) :
  _sock self = None ->
  let not_connected {A} : outcome A * TcpCamera :=
    (Raise (ConnectionError "Not connected. Call connect() first."), self) in
  (forall pan_speed tilt_speed pan_position tilt_position relative,
      -24 <= pan_speed <= 24 -> -24 <= tilt_speed <= 24 ->
      (forall pos, pan_position = Some pos -> -32768 <= pos <= 32767) ->
      (forall pos, tilt_position = Some pos -> -32768 <= pos <= 32767) ->
      pantilt pan_speed tilt_speed pan_position tilt_position relative self
      = not_connected)
  /\ pantilt_stop self = not_connected
  /\ pantilt_home self = not_connected
  /\ pantilt_reset self = not_connected
  /\ get_pantilt_position self = not_connected
  /\ (forall speed, -7 <= speed <= 7 ->
        zoom speed self = not_connected /\ manual_focus speed self = not_connected)
  /\ (forall position,
        (Qabs (position * 16384) < inject_Z Py.float_limit)%Q ->
        zoom_to position self = not_connected)
  /\ (forall position,
        (inject_Z Py.float_limit <= Qabs (position * 16384))%Q ->
        zoom_to position self
        = (Raise (OverflowError "cannot convert float infinity to integer"), self))
  /\ get_zoom_position self = not_connected
  /\ (forall mode, Py.lower mode ∈ mode_names -> set_focus_mode mode self = not_connected)
  /\ get_focus_mode self = not_connected
  /\ (forall preset_num, 0 <= preset_num <= 255 ->
        save_preset preset_num self = not_connected
        /\ recall_preset preset_num self = not_connected)
  /\ (forall power_on, set_power power_on self = not_connected)
  /\ get_power_status self = not_connected.
Proof.
  intros Hsock not_connected. unfold not_connected.
  assert (Haction : forall command_hex,
             (_send_command command_hex false ;; ret tt) self
             = (Raise (ConnectionError "Not connected. Call connect() first."), self)).
  { intros command_hex. unfold bind.
    rewrite (_send_command_not_connected _ _ _ Hsock). reflexivity. }
  assert (Hinquiry : forall A command_hex (k : option bytes -> M A),
             (do response <- _send_command command_hex true ; k response) self
             = (Raise (ConnectionError "Not connected. Call connect() first."), self)).
  { intros A command_hex k. unfold bind.
    rewrite (_send_command_not_connected _ _ _ Hsock). reflexivity. }
  repeat split.
  - intros pan_speed tilt_speed pan_position tilt_position relative Hpan Htilt Hpp Htp.
    unfold pantilt.
    replace ((24 <? Z.abs pan_speed) || (24 <? Z.abs tilt_speed)) with false
      by (symmetry; apply orb_false_iff; rewrite !Z.ltb_ge; lia).
    destruct pan_position as [pan_pos |]; [| apply Haction].
    destruct tilt_position as [tilt_pos |]; [| apply Haction].
    rewrite (encode_position_text pan_pos (Hpp _ eq_refl)).
    rewrite (encode_position_text tilt_pos (Htp _ eq_refl)).
    apply Haction.
  - unfold pantilt_stop, pantilt. cbn [Z.abs Z.ltb Z.compare orb]. apply Haction.
  - apply Haction.
  - apply Haction.
  - apply Hinquiry.
  - unfold zoom. replace (7 <? Z.abs speed) with false by (symmetry; apply Z.ltb_ge; lia).
    apply Haction.
  - unfold manual_focus.
    replace (7 <? Z.abs speed) with false by (symmetry; apply Z.ltb_ge; lia).
    apply Haction.
  - intros position Hfinite. unfold zoom_to, Py.finite.
    replace (Qle_bool (inject_Z Py.float_limit) (Qabs (position * 16384))) with false.
    + apply Haction.
    + symmetry. apply not_true_is_false. intros Hle. apply Qle_bool_iff in Hle.
      apply (Qlt_irrefl (Qabs (position * 16384))).
      apply Qlt_le_trans with (1 := Hfinite). exact Hle.
  - intros position Hinfinite. unfold zoom_to, Py.finite.
    apply Qle_bool_iff in Hinfinite. rewrite Hinfinite. reflexivity.
  - apply Hinquiry.
  - intros mode Hname.
    destruct (known_mode_code _ Hname) as (code & command_bytes & Hcode & _).
    unfold set_focus_mode. rewrite Hcode. apply Haction.
  - apply Hinquiry.
  - unfold save_preset.
    replace ((0 <=? preset_num) && (preset_num <=? 255)) with true
      by (symmetry; apply andb_true_iff; rewrite !Z.leb_le; lia).
    apply Haction.
  - unfold recall_preset.
    replace ((0 <=? preset_num) && (preset_num <=? 255)) with true
      by (symmetry; apply andb_true_iff; rewrite !Z.leb_le; lia).
    apply Haction.
  - intros power_on. apply Haction.
  - apply Hinquiry.
Qed.

(** After [close_connection]: an inquiry and [zoom_to(0.5)] raise
    [ConnectionError]; [zoom_to(2.0**1010)] raises [OverflowError]. *)
Lemma operations_need_connection_witness :
  let closed := snd (close_connection (connected [0x90; 0x50; 0x02; 0xFF])) in
  get_focus_mode closed
  = (Raise (ConnectionError "Not connected. Call connect() first."), closed)
  /\ zoom_to (1 # 2) closed
     = (Raise (ConnectionError "Not connected. Call connect() first."), closed)
  /\ zoom_to (inject_Z (2 ^ 1010)) closed
     = (Raise (OverflowError "cannot convert float infinity to integer"), closed).
Proof.
  intros closed.
  destruct (operations_need_connection closed)
    as (_ & _ & _ & _ & _ & _ & Hzoom & Hoverflow & _ & _ & Hfocus & _).
  - reflexivity.
  - split; [exact Hfocus |]. split.
    + apply Hzoom. unfold Qlt. vm_compute. reflexivity.
    + apply Hoverflow. unfold Qle. vm_compute. discriminate.
Defined.

(** ** What an exchange leaves behind *)

(** Whatever the command and whatever the socket does, [_send_command]
    on a connected camera leaves it connected, on the same address, with
    the socket back in blocking mode under the camera's timeout; the
    command has been handed to [send] at most once, and nothing else
    has. *)
Theorem exchange_keeps_connection
    (self : TcpCamera) (s : socket) (command_hex : string) (query : bool) :
  _sock self = Some s ->
  exists (result : outcome (option bytes)) (s' : socket),
    _send_command command_hex query self = (result, set_sock (Some s') self)
    /\ sk_blocking s' = true
    /\ sk_timeout s' = Some (_timeout self)
    /\ sk_closed s' = sk_closed s
    /\ (sk_sent s' = sk_sent s
        \/ exists frame,
            command_bytes_of command_hex query = inr frame
            /\ sk_sent s' = (sk_sent s ++ [frame])%list).
Proof.
  intros Hsock.
  unfold _send_command. rewrite Hsock.
  unfold bind at 1. unfold _flush_input. rewrite Hsock.
  destruct (command_bytes_of command_hex query) as [pos | frame] eqn:Hcommand;
    unfold command_bytes_of in Hcommand; rewrite Hcommand.
  { eexists. eexists. split; [reflexivity |].
    repeat split. left. reflexivity. }
  unfold bind at 1. unfold sock_send. cbn [_sock set_sock].
  unfold send. cbn [sk_send_raises settimeout setblocking set_incoming].
  destruct (sk_send_raises s) as [err |] eqn:Hsend.
  { eexists. eexists. split; [reflexivity |].
    repeat split. left. reflexivity. }
  unfold bind at 1. unfold sock_recv. cbn [_sock set_sock].
  unfold recv. cbn [sk_incoming settimeout setblocking set_incoming].
  destruct (drain (sk_incoming s)) as [| [reply | | | msg] rest].
  - eexists. eexists. split; [reflexivity |].
    repeat split. right. exists frame. split; reflexivity.
  - destruct reply as [| b0 reply'].
    + eexists. eexists. split; [reflexivity |].
      repeat split. right. exists frame. split; reflexivity.
    + destruct ((3 <=? Z.of_nat (length (b0 :: reply')))
                && match Py.index (b0 :: reply') 1 with
                   | Some b => Z.land b 0xF0 =? 0x60
                   | None => false
                   end);
        [| destruct (query && (3 <? Z.of_nat (length (b0 :: reply'))))];
        (eexists; eexists; split; [reflexivity |];
         repeat split; right; exists frame; split; reflexivity).
  - eexists. eexists. split; [reflexivity |].
    repeat split. right. exists frame. split; reflexivity.
  - eexists. eexists. split; [reflexivity |].
    repeat split. right. exists frame. split; reflexivity.
  - eexists. eexists. split; [reflexivity |].
    repeat split. right. exists frame. split; reflexivity.
Qed.

(** A device error on a zoom command: the camera stays connected. *)
Lemma exchange_keeps_connection_witness :
  exists (result : outcome (option bytes)) (s' : socket),
    _send_command "04 07 23" false (connected [0x90; 0x60; 0x41; 0xFF])
    = (result, set_sock (Some s') (connected [0x90; 0x60; 0x41; 0xFF]))
    /\ sk_blocking s' = true
    /\ sk_timeout s' = Some (_timeout (connected [0x90; 0x60; 0x41; 0xFF]))
    /\ sk_closed s' = false
    /\ (sk_sent s' = []
        \/ exists frame,
            command_bytes_of "04 07 23" false = inr frame
            /\ sk_sent s' = [frame]).
Proof.
  apply (exchange_keeps_connection
           (connected [0x90; 0x60; 0x41; 0xFF])
           (settimeout 2 (mock_socket [0x90; 0x60; 0x41; 0xFF]))
           "04 07 23" false).
  reflexivity.
Defined.

(** ** The frame around every command *)

Lemma remove_spaces_app (a b : string) :
  Py.remove_spaces (a +:+ b) = Py.remove_spaces a +:+ Py.remove_spaces b.
Proof.
  induction a as [| c a IH]; [reflexivity |].
  change (String c a +:+ b) with (String c (a +:+ b)).
  cbn [Py.remove_spaces]. rewrite IH.
  destruct (Ascii.eqb c " "); reflexivity.
Qed.

(** A text followed by the digits FF reads as bytes only if the text
    alone does, wherever the reading starts; the bytes are those of the
    text, then FF. *)
Lemma fromhex_from_app_FF (n : nat) :
  forall (t : string) (pos : Z) (frame : bytes),
    (String.length t <= n)%nat ->
    Py.fromhex_from pos (t +:+ "FF") = inr frame ->
    exists body,
      (forall pos', Py.fromhex_from pos' t = inr body)
      /\ frame = (body ++ [0xFF])%list.
Proof.
  induction n as [n IH] using lt_wf_ind.
  intros t pos frame Hlen Hread.
  destruct t as [| c t'].
  - change ("" +:+ "FF") with "FF" in Hread.
    unfold Py.fromhex_from in Hread. vm_compute in Hread.
    injection Hread as <-. exists []. split; reflexivity.
  - change (String c t' +:+ "FF") with (String c (t' +:+ "FF")) in Hread.
    cbn [String.length] in Hlen.
    cbn [Py.fromhex_from] in Hread.
    destruct (Py.is_space c) eqn:Hspace.
    { destruct (IH (String.length t') ltac:(lia) t' (pos + 1) frame (le_n _) Hread)
        as (body & Hbody & ->).
      exists body. split; [| reflexivity].
      intros pos'. cbn [Py.fromhex_from]. rewrite Hspace. apply Hbody. }
    destruct (Py.hex_val c) as [top |] eqn:Htop; [| discriminate Hread].
    destruct t' as [| d t''].
    + change ("" +:+ "FF") with "FF" in Hread. vm_compute in Hread. discriminate Hread.
    + change (String d t'' +:+ "FF") with (String d (t'' +:+ "FF")) in Hread.
      cbv beta iota in Hread. cbn [String.length] in Hlen.
      destruct (Py.hex_val d) as [bot |] eqn:Hbot; [| discriminate Hread].
      destruct (Py.fromhex_from (pos + 2) (t'' +:+ "FF")) as [p | rest] eqn:Hrest;
        [discriminate Hread |].
      injection Hread as <-.
      destruct (IH (String.length t'') ltac:(lia) t'' (pos + 2) rest (le_n _) Hrest)
        as (body & Hbody & ->).
      exists (top * 16 + bot :: body). split; [| reflexivity].
      intros pos'. cbn [Py.fromhex_from]. rewrite Hspace, Htop, Hbot, Hbody. reflexivity.
Qed.

(** Every frame the client builds is 81, then 01 for an action or 09 for
    an inquiry, then the bytes of the command body, then FF; no frame
    is built from a body that does not read as bytes. *)
Theorem frames_are_framed (command_hex : string) (query : bool) (frame : bytes) :
  command_bytes_of command_hex query = inr frame ->
  exists body,
    Py.fromhex (Py.remove_spaces command_hex) = inr body
    /\ frame = (0x81 :: (if query then 0x09 else 0x01) :: body ++ [0xFF])%list.
Proof.
  unfold command_bytes_of. intros Hframe.
  assert (Hread : exists rest,
             Py.fromhex_from 4 (Py.remove_spaces command_hex +:+ "FF") = inr rest
             /\ frame = 0x81 :: (if query then 0x09 else 0x01) :: rest).
  { destruct query.
    - change (Py.remove_spaces ("81 09" +:+ " " +:+ command_hex +:+ " FF"))
        with (String "8" (String "1" (String "0" (String "9"
                (Py.remove_spaces (command_hex +:+ " FF")))))) in Hframe.
      rewrite remove_spaces_app in Hframe.
      change (Py.remove_spaces " FF") with "FF" in Hframe.
      unfold Py.fromhex in Hframe.
      rewrite (fromhex_from_pair 0 "8" "1" _ 8 1) in Hframe by reflexivity.
      rewrite (fromhex_from_pair (0 + 2) "0" "9" _ 0 9) in Hframe by reflexivity.
      change (0 + 2 + 2) with 4 in Hframe.
      destruct (Py.fromhex_from 4 (Py.remove_spaces command_hex +:+ "FF"))
        as [p | rest]; [discriminate Hframe |].
      injection Hframe as <-. exists rest. split; reflexivity.
    - change (Py.remove_spaces ("81 01" +:+ " " +:+ command_hex +:+ " FF"))
        with (String "8" (String "1" (String "0" (String "1"
                (Py.remove_spaces (command_hex +:+ " FF")))))) in Hframe.
      rewrite remove_spaces_app in Hframe.
      change (Py.remove_spaces " FF") with "FF" in Hframe.
      unfold Py.fromhex in Hframe.
      rewrite (fromhex_from_pair 0 "8" "1" _ 8 1) in Hframe by reflexivity.
      rewrite (fromhex_from_pair (0 + 2) "0" "1" _ 0 1) in Hframe by reflexivity.
      change (0 + 2 + 2) with 4 in Hframe.
      destruct (Py.fromhex_from 4 (Py.remove_spaces command_hex +:+ "FF"))
        as [p | rest]; [discriminate Hframe |].
      injection Hframe as <-. exists rest. split; reflexivity. }
  destruct Hread as (rest & Hrest & ->).
  destruct (fromhex_from_app_FF _ _ _ _ (le_n _) Hrest) as (body & Hbody & ->).
  exists body. split; [apply Hbody | reflexivity].
Qed.

(** The pan/tilt inquiry: 81 09 06 12 FF. *)
Lemma frames_are_framed_witness :
  exists body,
    Py.fromhex (Py.remove_spaces "06 12") = inr body
    /\ [0x81; 0x09; 0x06; 0x12; 0xFF] = (0x81 :: 0x09 :: body ++ [0xFF])%list.
Proof.
  apply (frames_are_framed "06 12" true [0x81; 0x09; 0x06; 0x12; 0xFF]).
  reflexivity.
Defined.

(** ** Frames of the other commands *)

(** Read a command text made of literal characters and of digits
    [Py.hex_digit n] with [n] known to be a nibble. *)
Ltac read_frame :=
  unfold command_bytes_of; cbv [append];
  cbn [Py.remove_spaces Ascii.eqb Bool.eqb];
  rewrite ?hex_digit_not_blank by assumption;
  unfold Py.fromhex; repeat fromhex_step; cbn [Py.fromhex_from].

Lemma speed_digit_frame (opcode : ascii) (dir speed : Z) :
  (opcode = "7" \/ opcode = "8")%char -> 0 <= dir < 16 -> 0 <= speed < 16 ->
  command_bytes_of
    (String "0" (String "4" (String " " (String "0" (String opcode (String " "
       (String (Py.hex_digit dir) (Py.format_x speed)))))))) false
  = inr [0x81; 0x01; 0x04; (if Ascii.eqb opcode "7" then 0x07 else 0x08);
         dir * 16 + speed; 0xFF].
Proof.
  intros Hopcode Hdir Hspeed. rewrite (format_x_nibble speed Hspeed).
  destruct Hopcode as [-> | ->]; read_frame; reflexivity.
Qed.

(** [zoom] with a speed in [-7, 7] hands to [send] the six bytes
    81 01 04 07 XY FF, where Y is the magnitude of the speed and X is 0
    for a stop, 2 for zooming in and 3 for zooming out. *)
Theorem zoom_sends (self : TcpCamera) (s : socket) (speed : Z) :
  _sock self = Some s ->
  sk_send_raises s = None ->
  -7 <= speed <= 7 ->
  exists (result : outcome unit) (s' : socket),
    zoom speed self = (result, set_sock (Some s') self)
    /\ sk_sent s'
       = (sk_sent s
          ++ [[0x81; 0x01; 0x04; 0x07; zoom_direction speed * 16 + Z.abs speed; 0xFF]])%list.
Proof.
  intros Hsock Hsend Hspeed. unfold zoom.
  replace (7 <? Z.abs speed) with false by (symmetry; apply Z.ltb_ge; lia).
  apply (action_sends self s _ _ Hsock Hsend).
  unfold zoom_direction.
  destruct (speed =? 0); [| destruct (0 <? speed)];
    [apply (speed_digit_frame "7" 0 (Z.abs speed))
    | apply (speed_digit_frame "7" 2 (Z.abs speed))
    | apply (speed_digit_frame "7" 3 (Z.abs speed))];
    first [left; reflexivity | lia].
Qed.

(** [zoom(speed=-3)] sends 81 01 04 07 33 FF. *)
Lemma zoom_sends_witness :
  exists (result : outcome unit) (s' : socket),
    zoom (-3) (connected [0x90; 0x41; 0xFF; 0x90; 0x51; 0xFF])
    = (result, set_sock (Some s') (connected [0x90; 0x41; 0xFF; 0x90; 0x51; 0xFF]))
    /\ sk_sent s' = [[0x81; 0x01; 0x04; 0x07; 0x33; 0xFF]].
Proof.
  apply (zoom_sends (connected [0x90; 0x41; 0xFF; 0x90; 0x51; 0xFF])
           (settimeout 2 (mock_socket [0x90; 0x41; 0xFF; 0x90; 0x51; 0xFF])) (-3));
    first [reflexivity | lia].
Defined.

(** [manual_focus] with a speed in [-7, 7] hands to [send] the six bytes
    81 01 04 08 XY FF, where Y is the magnitude of the speed and X is 0
    for a stop, 3 for a positive speed (near) and 2 for a negative one
    (far): the two direction digits are those of [zoom] exchanged. *)
Theorem manual_focus_sends (self : TcpCamera) (s : socket) (speed : Z) :
  _sock self = Some s ->
  sk_send_raises s = None ->
  -7 <= speed <= 7 ->
  exists (result : outcome unit) (s' : socket),
    manual_focus speed self = (result, set_sock (Some s') self)
    /\ sk_sent s'
       = (sk_sent s
          ++ [[0x81; 0x01; 0x04; 0x08; focus_direction speed * 16 + Z.abs speed; 0xFF]])%list.
Proof.
  intros Hsock Hsend Hspeed. unfold manual_focus.
  replace (7 <? Z.abs speed) with false by (symmetry; apply Z.ltb_ge; lia).
  apply (action_sends self s _ _ Hsock Hsend).
  unfold focus_direction.
  destruct (speed =? 0); [| destruct (0 <? speed)];
    [apply (speed_digit_frame "8" 0 (Z.abs speed))
    | apply (speed_digit_frame "8" 3 (Z.abs speed))
    | apply (speed_digit_frame "8" 2 (Z.abs speed))];
    first [right; reflexivity | lia].
Qed.

(** [manual_focus(5)] sends 81 01 04 08 35 FF. *)
Lemma manual_focus_sends_witness :
  exists (result : outcome unit) (s' : socket),
    manual_focus 5 (connected [0x90; 0x41; 0xFF; 0x90; 0x51; 0xFF])
    = (result, set_sock (Some s') (connected [0x90; 0x41; 0xFF; 0x90; 0x51; 0xFF]))
    /\ sk_sent s' = [[0x81; 0x01; 0x04; 0x08; 0x35; 0xFF]].
Proof.
  apply (manual_focus_sends (connected [0x90; 0x41; 0xFF; 0x90; 0x51; 0xFF])
           (settimeout 2 (mock_socket [0x90; 0x41; 0xFF; 0x90; 0x51; 0xFF])) 5);
    first [reflexivity | lia].
Defined.

Lemma preset_frame (selector : ascii) (preset_num : Z) :
  (selector = "1" \/ selector = "2")%char -> 0 <= preset_num <= 255 ->
  command_bytes_of
    (String "0" (String "4" (String " " (String "3" (String "F" (String " "
       (String "0" (String selector (String " " (Py.format_02x preset_num))))))))))
    false
  = inr [0x81; 0x01; 0x04; 0x3F; (if Ascii.eqb selector "1" then 0x01 else 0x02);
         preset_num; 0xFF].
Proof.
  intros Hselector Hnum.
  rewrite format_02x_byte by lia.
  assert (H1 : 0 <= preset_num / 16 < 16)
    by (split; [apply Z.div_pos; lia | apply Z.div_lt_upper_bound; lia]).
  assert (H0 : 0 <= preset_num mod 16 < 16) by (apply Z.mod_pos_bound; lia).
  pose proof (Z.div_mod preset_num 16) as Hdm.
  destruct Hselector as [-> | ->]; read_frame; repeat f_equal; lia.
Qed.

(** With a preset number in [0, 255], [save_preset] hands to [send]
    81 01 04 3F 01 nn FF and [recall_preset] 81 01 04 3F 02 nn FF, nn
    being the number as one byte. *)
Theorem preset_sends (self : TcpCamera) (s : socket) (preset_num : Z) :
  _sock self = Some s ->
  sk_send_raises s = None ->
  0 <= preset_num <= 255 ->
  (exists (result : outcome unit) (s' : socket),
      save_preset preset_num self = (result, set_sock (Some s') self)
      /\ sk_sent s'
         = (sk_sent s ++ [[0x81; 0x01; 0x04; 0x3F; 0x01; preset_num; 0xFF]])%list)
  /\ (exists (result : outcome unit) (s' : socket),
        recall_preset preset_num self = (result, set_sock (Some s') self)
        /\ sk_sent s'
           = (sk_sent s ++ [[0x81; 0x01; 0x04; 0x3F; 0x02; preset_num; 0xFF]])%list).
Proof.
  intros Hsock Hsend Hnum. split.
  - unfold save_preset.
    replace ((0 <=? preset_num) && (preset_num <=? 255)) with true
      by (symmetry; apply andb_true_iff; rewrite !Z.leb_le; lia).
    apply (action_sends self s _ _ Hsock Hsend).
    apply (preset_frame "1" preset_num); [left; reflexivity | exact Hnum].
  - unfold recall_preset.
    replace ((0 <=? preset_num) && (preset_num <=? 255)) with true
      by (symmetry; apply andb_true_iff; rewrite !Z.leb_le; lia).
    apply (action_sends self s _ _ Hsock Hsend).
    apply (preset_frame "2" preset_num); [right; reflexivity | exact Hnum].
Qed.

(** Preset 255, the last one. *)
Lemma preset_sends_witness :
  exists (result : outcome unit) (s' : socket),
    recall_preset 255 (connected [0x90; 0x41; 0xFF; 0x90; 0x51; 0xFF])
    = (result, set_sock (Some s') (connected [0x90; 0x41; 0xFF; 0x90; 0x51; 0xFF]))
    /\ sk_sent s' = [[0x81; 0x01; 0x04; 0x3F; 0x02; 0xFF; 0xFF]].
Proof.
  destruct (preset_sends (connected [0x90; 0x41; 0xFF; 0x90; 0x51; 0xFF])
              (settimeout 2 (mock_socket [0x90; 0x41; 0xFF; 0x90; 0x51; 0xFF])) 255)
    as [_ Hrecall]; first [reflexivity | lia | exact Hrecall].
Defined.

(** ** Moving to a position *)

Lemma nibbles_of_range u :
  0 <= u < 65536 -> Forall (fun b => 0 <= b < 16) (nibbles_of u).
Proof.
  intros Hu. unfold nibbles_of.
  assert (Hhi : 0 <= u / 256 < 256)
    by (split; [apply Z.div_pos; lia | apply Z.div_lt_upper_bound; lia]).
  assert (Hlo : 0 <= u mod 256 < 256) by (apply Z.mod_pos_bound; lia).
  repeat (apply Forall_cons; split;
          [first [apply high_nibble_range; assumption | apply low_nibble_range] |]).
  apply Forall_nil. trivial.
Qed.

Lemma pantilt_position_frame pan_speed tilt_speed pan_pos tilt_pos (relative : bool)
    pan_enc tilt_enc :
  -24 <= pan_speed <= 24 -> -24 <= tilt_speed <= 24 ->
  -32768 <= pan_pos <= 32767 -> -32768 <= tilt_pos <= 32767 ->
  encode_position pan_pos = Some pan_enc ->
  encode_position tilt_pos = Some tilt_enc ->
  command_bytes_of
    ("06 " +:+ (if relative then "03" else "02") +:+ " "
     +:+ Py.format_02x (Z.abs pan_speed) +:+ " "
     +:+ Py.format_02x (Z.abs tilt_speed) +:+ " " +:+ pan_enc +:+ " " +:+ tilt_enc)
    false
  = inr ([0x81; 0x01; 0x06; (if relative then 0x03 else 0x02);
          Z.abs pan_speed; Z.abs tilt_speed]
         ++ nibbles_of (twos_complement pan_pos)
         ++ nibbles_of (twos_complement tilt_pos) ++ [0xFF])%list.
Proof.
  intros Hpan Htilt Hpp Htp Hpan_enc Htilt_enc.
  rewrite (encode_position_text pan_pos Hpp) in Hpan_enc.
  rewrite (encode_position_text tilt_pos Htp) in Htilt_enc.
  cbv zeta in Hpan_enc, Htilt_enc.
  injection Hpan_enc as <-. injection Htilt_enc as <-.
  assert (Hup : 0 <= pan_pos mod 65536 < 65536) by (apply Z.mod_pos_bound; lia).
  assert (Hut : 0 <= tilt_pos mod 65536 < 65536) by (apply Z.mod_pos_bound; lia).
  pose proof (nibbles_of_range _ Hup) as Hnp.
  pose proof (nibbles_of_range _ Hut) as Hnt.
  unfold twos_complement, nibbles_of in *.
  repeat match goal with
         | H : Forall _ (_ :: _) |- _ =>
             let Hhd := fresh "Hnib" in
             apply Forall_cons in H as [Hhd H]
         end.
  rewrite !format_02x_byte by lia.
  assert (Hp1 : 0 <= Z.abs pan_speed / 16 < 16)
    by (split; [apply Z.div_pos; lia | apply Z.div_lt_upper_bound; lia]).
  assert (Hp0 : 0 <= Z.abs pan_speed mod 16 < 16) by (apply Z.mod_pos_bound; lia).
  assert (Ht1 : 0 <= Z.abs tilt_speed / 16 < 16)
    by (split; [apply Z.div_pos; lia | apply Z.div_lt_upper_bound; lia]).
  assert (Ht0 : 0 <= Z.abs tilt_speed mod 16 < 16) by (apply Z.mod_pos_bound; lia).
  pose proof (Z.div_mod (Z.abs pan_speed) 16) as Hpd.
  pose proof (Z.div_mod (Z.abs tilt_speed) 16) as Htd.
  destruct relative; read_frame; cbn [app]; repeat f_equal; lia.
Qed.

(** With both positions given, both within signed 16 bits, and both
    speeds in [-24, 24], [pantilt] hands to [send] the fifteen bytes
    81 01 06 mm |pan_speed| |tilt_speed|, the four nibbles of the pan
    position, the four nibbles of the tilt position, FF; mm is 02 for an
    absolute move and 03 for a relative one, and a negative position
    goes out in two's complement. *)
Theorem pantilt_position_sends
    (self : TcpCamera) (s : socket)
    (pan_speed tilt_speed pan_position tilt_position : Z) (relative : bool) :
  _sock self = Some s ->
  sk_send_raises s = None ->
  -24 <= pan_speed <= 24 ->
  -24 <= tilt_speed <= 24 ->
  -32768 <= pan_position <= 32767 ->
  -32768 <= tilt_position <= 32767 ->
  exists (result : outcome unit) (s' : socket),
    pantilt pan_speed tilt_speed (Some pan_position) (Some tilt_position) relative self
    = (result, set_sock (Some s') self)
    /\ sk_sent s'
       = (sk_sent s
          ++ [[0x81; 0x01; 0x06; (if relative then 0x03 else 0x02);
               Z.abs pan_speed; Z.abs tilt_speed]
              ++ nibbles_of (twos_complement pan_position)
              ++ nibbles_of (twos_complement tilt_position) ++ [0xFF]])%list.
Proof.
  intros Hsock Hsend Hpan Htilt Hpp Htp. unfold pantilt.
  replace ((24 <? Z.abs pan_speed) || (24 <? Z.abs tilt_speed)) with false
    by (symmetry; apply orb_false_iff; rewrite !Z.ltb_ge; lia).
  destruct (encode_position pan_position) as [pan_enc |] eqn:Hpan_enc;
    [| rewrite (encode_position_text _ Hpp) in Hpan_enc; discriminate Hpan_enc].
  destruct (encode_position tilt_position) as [tilt_enc |] eqn:Htilt_enc;
    [| rewrite (encode_position_text _ Htp) in Htilt_enc; discriminate Htilt_enc].
  apply (action_sends self s _ _ Hsock Hsend).
  apply pantilt_position_frame; assumption.
Qed.

(** An absolute move to pan -432, tilt 291 at speeds -5 and 0. *)
Lemma pantilt_position_sends_witness :
  exists (result : outcome unit) (s' : socket),
    pantilt (-5) 0 (Some (-432)) (Some 291) false
      (connected [0x90; 0x41; 0xFF; 0x90; 0x51; 0xFF])
    = (result, set_sock (Some s') (connected [0x90; 0x41; 0xFF; 0x90; 0x51; 0xFF]))
    /\ sk_sent s'
       = [[0x81; 0x01; 0x06; 0x02; 0x05; 0x00;
           0x0F; 0x0E; 0x05; 0x00; 0x00; 0x01; 0x02; 0x03; 0xFF]].
Proof.
  apply (pantilt_position_sends
           (connected [0x90; 0x41; 0xFF; 0x90; 0x51; 0xFF])
           (settimeout 2 (mock_socket [0x90; 0x41; 0xFF; 0x90; 0x51; 0xFF]))
           (-5) 0 (-432) 291 false); first [reflexivity | lia].
Defined.

(** A position beyond signed 16 bits makes [pantilt] raise
    [OverflowError] before anything is sent or read: the camera object
    is left as it was. *)
Theorem pantilt_position_overflow
    (self : TcpCamera) (pan_speed tilt_speed pan_position tilt_position : Z)
    (relative : bool) :
  -24 <= pan_speed <= 24 ->
  -24 <= tilt_speed <= 24 ->
  ~ (-32768 <= pan_position <= 32767) \/ ~ (-32768 <= tilt_position <= 32767) ->
  pantilt pan_speed tilt_speed (Some pan_position) (Some tilt_position) relative self
  = (Raise (OverflowError "int too big to convert"), self).
Proof.
  intros Hpan Htilt Hpos. unfold pantilt.
  replace ((24 <? Z.abs pan_speed) || (24 <? Z.abs tilt_speed)) with false
    by (symmetry; apply orb_false_iff; rewrite !Z.ltb_ge; lia).
  assert (Hnone : forall pos, ~ (-32768 <= pos <= 32767) -> encode_position pos = None).
  { intros pos Hout. unfold encode_position, Py.to_bytes_2_big_signed.
    replace ((-32768 <=? pos) && (pos <=? 32767)) with false; [reflexivity |].
    symmetry. apply andb_false_iff. rewrite !Z.leb_gt. lia. }
  destruct Hpos as [Hout | Hout]; rewrite (Hnone _ Hout).
  - reflexivity.
  - destruct (encode_position pan_position); reflexivity.
Qed.

(** Tilt position 32768 is one too many. *)
Lemma pantilt_position_overflow_witness :
  pantilt 5 5 (Some 0) (Some 32768) true (connected [0x90; 0x41; 0xFF])
  = (Raise (OverflowError "int too big to convert"), connected [0x90; 0x41; 0xFF]).
Proof.
  apply (pantilt_position_overflow (connected [0x90; 0x41; 0xFF]) 5 5 0 32768 true); lia.
Defined.

(** ** Reading positions *)

(** Whatever four bytes or more are decoded, the position is a signed
    16-bit value. *)
Lemma decode_position_range (data : bytes) (v : Z) :
  decode_position data = Some v -> -32768 <= v <= 32767.
Proof.
  unfold decode_position.
  destruct data as [| d0 [| d1 [| d2 [| d3 tl]]]];
    try (rewrite nibbles_value_short by (cbn; lia); discriminate).
  destruct (nibbles_value_low d0 d1 d2 d3 tl) as (u & -> & _ & Hu).
  cbn [mbind option_bind]. intros [= <-].
  destruct (Z.leb_spec 0x8000 u); lia.
Qed.

Lemma decode_position_nibbles_of (v : Z) :
  -32768 <= v <= 32767 -> decode_position (nibbles_of (twos_complement v)) = Some v.
Proof.
  intros Hv. unfold decode_position, twos_complement.
  rewrite nibbles_value_nibbles_of by (apply Z.mod_pos_bound; lia).
  cbn [mbind option_bind]. f_equal.
  destruct (Z.lt_ge_cases v 0) as [Hlt | Hge].
  - replace (v mod 65536) with (v + 65536)
      by (apply (Z.mod_unique_pos _ _ (-1)); lia).
    destruct (Z.leb_spec 0x8000 (v + 65536)); lia.
  - rewrite (Z.mod_small v 65536) by lia.
    destruct (Z.leb_spec 0x8000 v); lia.
Qed.

Lemma nibbles_value_range (data : bytes) (u : Z) :
  nibbles_value data = Some u -> 0 <= u <= 65535.
Proof.
  destruct data as [| d0 [| d1 [| d2 [| d3 tl]]]];
    try (rewrite nibbles_value_short by (cbn; lia); discriminate).
  destruct (nibbles_value_low d0 d1 d2 d3 tl) as (u' & -> & _ & Hu).
  intros [= <-]. lia.
Qed.

Lemma nibbles_value_digits p :
  0 <= p <= 0xFFFF ->
  nibbles_value [p / 4096; p / 256 mod 16; p / 16 mod 16; p mod 16] = Some p.
Proof.
  intros Hp.
  rewrite nibbles_value_nibbles;
    [| split; [apply Z.div_pos; lia | apply Z.div_lt_upper_bound; lia]
     | apply Z.mod_pos_bound; lia | apply Z.mod_pos_bound; lia
     | apply Z.mod_pos_bound; lia].
  f_equal.
  pose proof (Z.div_mod p 16). pose proof (Z.div_mod (p / 16) 16).
  pose proof (Z.div_mod (p / 16 / 16) 16).
  replace (p / 4096) with (p / 16 / 16 / 16) by (rewrite !Z.div_div by lia; reflexivity).
  replace (p / 256) with (p / 16 / 16) by (rewrite Z.div_div by lia; reflexivity).
  lia.
Qed.

(** What an inquiry hands back for a reply that is no error reply and
    longer than three bytes, with any two first bytes and any last. *)
Lemma inquiry_returns_payload self s command_hex frame h0 h1 payload t rest :
  _sock self = Some s ->
  sk_send_raises s = None ->
  command_bytes_of command_hex true = inr frame ->
  Z.land h1 0xF0 <> 0x60 ->
  payload <> [] ->
  drain (sk_incoming s) = RecvData (h0 :: h1 :: payload ++ [t]) :: rest ->
  _send_command command_hex true self
  = (Return (Some payload), set_sock (Some (exchanged (_timeout self) frame rest s)) self).
Proof.
  intros Hsock Hsend Hframe Hmask Hpayload Hdrain.
  rewrite (_send_command_reply self s command_hex true frame Hsock Hsend Hframe _ rest Hdrain).
  f_equal.
  assert (Hlen : (3 < length (h0 :: h1 :: payload ++ [t]))%nat).
  { cbn [length]. rewrite length_app. cbn [length].
    destruct payload; [contradiction | cbn [length]; lia]. }
  rewrite (index_nonneg _ 1) by lia.
  change ((h0 :: h1 :: payload ++ [t]) !! Z.to_nat 1) with (Some h1).
  cbv beta iota.
  replace (Z.land h1 0xF0 =? 0x60) with false by (symmetry; apply Z.eqb_neq; exact Hmask).
  rewrite andb_false_r.
  replace (3 <? Z.of_nat (length (h0 :: h1 :: payload ++ [t]))) with true
    by (symmetry; apply Z.ltb_lt; lia).
  cbn [andb]. do 2 f_equal.
  destruct (slice_2_m1 _ Hlen) as (h0' & h1' & t' & Hsplit).
  injection Hsplit as _ _ Htail.
  apply app_inj_tail in Htail as [Heq _]. symmetry. exact Heq.
Qed.

(** [get_pantilt_position] gives back the two positions whose nibbles
    the reply carries, negative ones included; it looks neither at the
    first byte of the reply nor at the last, and at the second only to
    tell an error reply. *)
Theorem get_pantilt_position_reads
    (self : TcpCamera) (s : socket) (h0 h1 t pan tilt : Z) (rest : list recv_outcome) :
  _sock self = Some s ->
  sk_send_raises s = None ->
  Z.land h1 0xF0 <> 0x60 ->
  -32768 <= pan <= 32767 ->
  -32768 <= tilt <= 32767 ->
  drain (sk_incoming s)
  = RecvData (h0 :: h1 :: nibbles_of (twos_complement pan)
                ++ nibbles_of (twos_complement tilt) ++ [t]) :: rest ->
  exists self', get_pantilt_position self = (Return (pan, tilt), self').
Proof.
  intros Hsock Hsend Hmask Hpan Htilt Hdrain.
  assert (Hframe : command_bytes_of "06 12" true = inr [0x81; 0x09; 0x06; 0x12; 0xFF])
    by reflexivity.
  pose proof (decode_position_nibbles_of pan Hpan) as Hdp.
  pose proof (decode_position_nibbles_of tilt Htilt) as Hdt.
  unfold nibbles_of in Hdrain, Hdp, Hdt.
  remember (twos_complement pan) as up. remember (twos_complement tilt) as ut.
  unfold get_pantilt_position, bind.
  rewrite (inquiry_returns_payload self s "06 12" _ h0 h1
             [Z.shiftr (up / 256) 4; Z.land (up / 256) 0xf;
              Z.shiftr (up mod 256) 4; Z.land (up mod 256) 0xf;
              Z.shiftr (ut / 256) 4; Z.land (ut / 256) 0xf;
              Z.shiftr (ut mod 256) 4; Z.land (ut mod 256) 0xf]
             t rest Hsock Hsend Hframe Hmask ltac:(discriminate) Hdrain).
  cbn [falsy len length Z.of_nat orb default].
  change (Py.slice ?l 0 4) with (take 4 l).
  change (Py.slice ?l 4 8) with (take 4 (drop 4 l)).
  unfold id. cbn [take drop]. rewrite Hdp, Hdt.
  change (Z.of_nat 8 <? 8) with false. eexists. reflexivity.
Qed.

(** The reply of the test suite: pan 0x0123, tilt -432. *)
Lemma get_pantilt_position_reads_witness :
  exists self',
    get_pantilt_position
      (connected [0x90; 0x50; 0x00; 0x01; 0x02; 0x03; 0x0F; 0x0E; 0x05; 0x00; 0xFF])
    = (Return (0x0123, -432), self').
Proof.
  apply (get_pantilt_position_reads
           (connected [0x90; 0x50; 0x00; 0x01; 0x02; 0x03; 0x0F; 0x0E; 0x05; 0x00; 0xFF])
           (settimeout 2 (mock_socket
              [0x90; 0x50; 0x00; 0x01; 0x02; 0x03; 0x0F; 0x0E; 0x05; 0x00; 0xFF]))
           0x90 0x50 0xFF 0x0123 (-432) []);
    first [reflexivity | lia | discriminate].
Defined.

(** [get_zoom_position] gives back the unsigned 16-bit value whose
    digits the reply carries, one per byte, which are the bytes
    [zoom_to] sends for that value; here too the first and the last byte
    of the reply are not looked at. *)
Theorem get_zoom_position_reads
    (self : TcpCamera) (s : socket) (h0 h1 t p : Z) (rest : list recv_outcome) :
  _sock self = Some s ->
  sk_send_raises s = None ->
  Z.land h1 0xF0 <> 0x60 ->
  0 <= p <= 0xFFFF ->
  drain (sk_incoming s)
  = RecvData (h0 :: h1 :: [p / 4096; p / 256 mod 16; p / 16 mod 16; p mod 16] ++ [t])
      :: rest ->
  exists self', get_zoom_position self = (Return p, self').
Proof.
  intros Hsock Hsend Hmask Hp Hdrain.
  assert (Hframe : command_bytes_of "04 47" true = inr [0x81; 0x09; 0x04; 0x47; 0xFF])
    by reflexivity.
  unfold get_zoom_position, bind.
  rewrite (inquiry_returns_payload self s "04 47" _ h0 h1
             [p / 4096; p / 256 mod 16; p / 16 mod 16; p mod 16] t rest
             Hsock Hsend Hframe Hmask ltac:(discriminate) Hdrain).
  cbn [falsy len length Z.of_nat orb default from_option]. unfold id.
  change (Z.of_nat 4 <? 4) with false.
  rewrite (nibbles_value_digits p Hp). eexists. reflexivity.
Qed.

(** The zoom reply of the test suite. *)
Lemma get_zoom_position_reads_witness :
  exists self',
    get_zoom_position (connected [0x90; 0x50; 0x01; 0x02; 0x03; 0x04; 0xFF])
    = (Return 0x1234, self').
Proof.
  apply (get_zoom_position_reads
           (connected [0x90; 0x50; 0x01; 0x02; 0x03; 0x04; 0xFF])
           (settimeout 2 (mock_socket [0x90; 0x50; 0x01; 0x02; 0x03; 0x04; 0xFF]))
           0x90 0x50 0xFF 0x1234 []);
    first [reflexivity | lia | discriminate].
Defined.

(** Whatever the camera answers, a pan or tilt position that
    [get_pantilt_position] returns is a signed 16-bit value and a zoom
    position that [get_zoom_position] returns is an unsigned 16-bit
    value. *)
Theorem positions_are_16_bit (self : TcpCamera) :
  (forall pan tilt self',
      get_pantilt_position self = (Return (pan, tilt), self') ->
      -32768 <= pan <= 32767 /\ -32768 <= tilt <= 32767)
  /\ (forall zoom_position self',
        get_zoom_position self = (Return zoom_position, self') ->
        0 <= zoom_position <= 65535).
Proof.
  split.
  - intros pan tilt self'. unfold get_pantilt_position, bind.
    destruct (_send_command "06 12" true self) as [[response | e] self1];
      [| discriminate].
    destruct (falsy response || (len response <? 8)); [discriminate |].
    destruct (decode_position (Py.slice (default [] response) 0 4)) as [pan' |] eqn:Hpan;
      [| discriminate].
    destruct (decode_position (Py.slice (default [] response) 4 8)) as [tilt' |] eqn:Htilt;
      [| discriminate].
    intros [= <- <- _].
    split; [apply (decode_position_range _ _ Hpan) | apply (decode_position_range _ _ Htilt)].
  - intros zoom_position self'. unfold get_zoom_position, bind.
    destruct (_send_command "04 47" true self) as [[response | e] self1];
      [| discriminate].
    destruct (falsy response || (len response <? 4)); [discriminate |].
    destruct (nibbles_value (default [] response)) as [value |] eqn:Hvalue;
      [| discriminate].
    intros [= <- _]. apply (nibbles_value_range _ _ Hvalue).
Qed.

(** A reply whose payload bytes are all FF: every nibble is F, the pan
    and tilt are -1, not 0xFFFF. *)
Lemma positions_are_16_bit_witness :
  fst (get_pantilt_position
         (connected [0x90; 0x50; 0xFF; 0xFF; 0xFF; 0xFF; 0xFF; 0xFF; 0xFF; 0xFF; 0xFF]))
  = Return (-1, -1)
  /\ (-32768 <= -1 <= 32767 /\ -32768 <= -1 <= 32767).
Proof.
  split; [reflexivity |].
  destruct (positions_are_16_bit
              (connected [0x90; 0x50; 0xFF; 0xFF; 0xFF; 0xFF; 0xFF; 0xFF; 0xFF; 0xFF; 0xFF]))
    as [Hpantilt _].
  apply (Hpantilt (-1) (-1)
           (snd (get_pantilt_position
                   (connected
                      [0x90; 0x50; 0xFF; 0xFF; 0xFF; 0xFF; 0xFF; 0xFF; 0xFF; 0xFF; 0xFF])))).
  reflexivity.
Defined.

(** ** Status inquiries *)

(** [get_focus_mode] and [get_power_status] read one byte only, the one
    before the terminator: 02 is ['auto'] and power on, 03 is ['manual'],
    anything else is ['unknown'], and anything but 02 is power off.
    Neither raises on such a reply. *)
Theorem status_inquiries_read_last_byte
    (self : TcpCamera) (s : socket) (h0 h1 last t : Z) (payload : bytes)
    (rest : list recv_outcome) :
  _sock self = Some s ->
  sk_send_raises s = None ->
  Z.land h1 0xF0 <> 0x60 ->
  drain (sk_incoming s) = RecvData (h0 :: h1 :: (payload ++ [last]) ++ [t]) :: rest ->
  (exists self',
      get_focus_mode self
      = (Return (if last =? 0x02 then "auto"
                 else if last =? 0x03 then "manual" else "unknown"), self'))
  /\ (exists self', get_power_status self = (Return (last =? 0x02), self')).
Proof.
  intros Hsock Hsend Hmask Hdrain.
  assert (Hfocus : command_bytes_of "04 38" true = inr [0x81; 0x09; 0x04; 0x38; 0xFF])
    by reflexivity.
  assert (Hpower : command_bytes_of "04 00" true = inr [0x81; 0x09; 0x04; 0x00; 0xFF])
    by reflexivity.
  assert (Hne : (payload ++ [last])%list <> [])
    by (intros Happ; apply app_eq_nil in Happ as [_ ?]; discriminate).
  assert (Htest : negb (falsy (Some (payload ++ [last])%list))
                  && (1 <=? len (Some (payload ++ [last])%list)) = true).
  { destruct (payload ++ [last])%list as [| b l] eqn:Heq; [contradiction |].
    cbn [falsy negb andb len length]. apply Z.leb_le. lia. }
  split; eexists.
  - unfold get_focus_mode, bind.
    rewrite (inquiry_returns_payload self s "04 38" _ h0 h1 _ t rest
               Hsock Hsend Hfocus Hmask Hne Hdrain).
    rewrite Htest. cbn [default from_option]. unfold id. rewrite index_last.
    destruct (Z.eqb_spec last 0x02) as [-> | Hnot2]; [reflexivity |].
    destruct (Z.eqb_spec last 0x03) as [-> | Hnot3]; [reflexivity |].
    destruct last as [| [[p | p |] | [p | p |] |] | p]; first [reflexivity | contradiction].
  - unfold get_power_status, bind.
    rewrite (inquiry_returns_payload self s "04 00" _ h0 h1 _ t rest
               Hsock Hsend Hpower Hmask Hne Hdrain).
    rewrite Htest. cbn [default from_option]. unfold id. rewrite index_last.
    reflexivity.
Qed.

(** The focus replies of the test suite, read as power status too. *)
Lemma status_inquiries_read_last_byte_witness :
  (exists self',
      get_focus_mode (connected [0x90; 0x50; 0x03; 0xFF]) = (Return "manual", self'))
  /\ (exists self',
        get_power_status (connected [0x90; 0x50; 0x03; 0xFF]) = (Return false, self')).
Proof.
  apply (status_inquiries_read_last_byte
           (connected [0x90; 0x50; 0x03; 0xFF])
           (settimeout 2 (mock_socket [0x90; 0x50; 0x03; 0xFF]))
           0x90 0x50 0x03 0xFF [] []);
    first [reflexivity | discriminate].
Defined.

(** ** Actions and their acknowledgement *)

Lemma action_returns self s command_hex frame :
  _sock self = Some s ->
  sk_send_raises s = None ->
  command_bytes_of command_hex false = inr frame ->
  lets_through (drain (sk_incoming s)) ->
  exists s',
    (_send_command command_hex false ;; ret tt) self = (Return tt, set_sock (Some s') self)
    /\ sk_sent s' = (sk_sent s ++ [frame])%list.
Proof.
  intros Hsock Hsend Hframe [Hnone | [(rest & Htimeout) | (reply & rest & Hreply & Hbytes & Hshape)]].
  - unfold bind.
    rewrite (_send_command_timeout self s command_hex false frame Hsock Hsend Hframe [])
      by (left; split; [exact Hnone | reflexivity]).
    eexists. split; reflexivity.
  - unfold bind.
    rewrite (_send_command_timeout self s command_hex false frame Hsock Hsend Hframe rest)
      by (right; exact Htimeout).
    eexists. split; reflexivity.
  - unfold bind.
    rewrite (_send_command_reply self s command_hex false frame Hsock Hsend Hframe
               reply rest Hreply).
    destruct reply as [| b0 reply']; [eexists; split; reflexivity |].
    destruct ((3 <=? Z.of_nat (length (b0 :: reply')))
              && match Py.index (b0 :: reply') 1 with
                 | Some b => Z.land b 0xF0 =? 0x60
                 | None => false
                 end) eqn:Hcheck.
    + exfalso. apply Hshape. apply error_test_shaped; assumption.
    + eexists. split; reflexivity.
Qed.

(** An action does not wait for an acknowledgement of any particular
    form: every action operation, with arguments that pass its checks,
    returns normally when the camera answers nothing within the timeout,
    when it answers no bytes, and when it answers anything that is not
    an error reply. *)
Theorem actions_accept_any_acknowledgement (self : TcpCamera) (s : socket) :
  _sock self = Some s ->
  sk_send_raises s = None ->
  lets_through (drain (sk_incoming s)) ->
  let returns (operation : M unit) :=
    exists s', operation self = (Return tt, set_sock (Some s') self) in
  (forall pan_speed tilt_speed relative,
      -24 <= pan_speed <= 24 -> -24 <= tilt_speed <= 24 ->
      returns (pantilt pan_speed tilt_speed None None relative)
      /\ forall pan_position tilt_position,
          -32768 <= pan_position <= 32767 -> -32768 <= tilt_position <= 32767 ->
          returns (pantilt pan_speed tilt_speed
                     (Some pan_position) (Some tilt_position) relative))
  /\ returns pantilt_stop /\ returns pantilt_home /\ returns pantilt_reset
  /\ (forall speed, -7 <= speed <= 7 -> returns (zoom speed) /\ returns (manual_focus speed))
  /\ returns zoom_stop
  /\ (forall position, 0 <= Py.round (position * 16384) <= 0xFFFF -> returns (zoom_to position))
  /\ (forall mode, Py.lower mode ∈ mode_names -> returns (set_focus_mode mode))
  /\ (forall preset_num, 0 <= preset_num <= 255 ->
        returns (save_preset preset_num) /\ returns (recall_preset preset_num))
  /\ (forall power_on, returns (set_power power_on)).
Proof.
  intros Hsock Hsend Hthrough returns. unfold returns.
  assert (Haction : forall command_hex frame,
             command_bytes_of command_hex false = inr frame ->
             exists s',
               (_send_command command_hex false ;; ret tt) self
               = (Return tt, set_sock (Some s') self)).
  { intros command_hex frame Hframe.
    destruct (action_returns self s command_hex frame Hsock Hsend Hframe Hthrough)
      as (s' & Hrun & _).
    exists s'. exact Hrun. }
  assert (Hzoom : forall speed, -7 <= speed <= 7 ->
             exists s', zoom speed self = (Return tt, set_sock (Some s') self)).
  { intros speed Hspeed. unfold zoom.
    replace (7 <? Z.abs speed) with false by (symmetry; apply Z.ltb_ge; lia).
    destruct (speed =? 0); [| destruct (0 <? speed)];
      [apply (Haction _ _ (speed_digit_frame "7" 0 (Z.abs speed)
                             ltac:(left; reflexivity) ltac:(lia) ltac:(lia)))
      | apply (Haction _ _ (speed_digit_frame "7" 2 (Z.abs speed)
                              ltac:(left; reflexivity) ltac:(lia) ltac:(lia)))
      | apply (Haction _ _ (speed_digit_frame "7" 3 (Z.abs speed)
                              ltac:(left; reflexivity) ltac:(lia) ltac:(lia)))]. }
  assert (Hcontinuous : forall pan_speed tilt_speed relative,
             -24 <= pan_speed <= 24 -> -24 <= tilt_speed <= 24 ->
             exists s', pantilt pan_speed tilt_speed None None relative self
                        = (Return tt, set_sock (Some s') self)).
  { intros pan_speed tilt_speed relative Hpan Htilt. unfold pantilt.
    replace ((24 <? Z.abs pan_speed) || (24 <? Z.abs tilt_speed)) with false
      by (symmetry; apply orb_false_iff; rewrite !Z.ltb_ge; lia).
    apply (Haction _ _ (pantilt_continuous_frame _ _ Hpan Htilt)). }
  split; [| split; [| split; [| split; [| split; [| split; [| split; [| split; [| split]]]]]]]].
  - intros pan_speed tilt_speed relative Hpan Htilt.
    split; [apply Hcontinuous; assumption |].
    intros pan_position tilt_position Hpp Htp. unfold pantilt.
    replace ((24 <? Z.abs pan_speed) || (24 <? Z.abs tilt_speed)) with false
      by (symmetry; apply orb_false_iff; rewrite !Z.ltb_ge; lia).
    destruct (encode_position pan_position) as [pan_enc |] eqn:Hpan_enc;
      [| rewrite (encode_position_text _ Hpp) in Hpan_enc; discriminate Hpan_enc].
    destruct (encode_position tilt_position) as [tilt_enc |] eqn:Htilt_enc;
      [| rewrite (encode_position_text _ Htp) in Htilt_enc; discriminate Htilt_enc].
    apply (Haction _ _ (pantilt_position_frame _ _ _ _ relative _ _
                          Hpan Htilt Hpp Htp Hpan_enc Htilt_enc)).
  - apply (Hcontinuous 0 0 false); lia.
  - apply (Haction "06 04" [0x81; 0x01; 0x06; 0x04; 0xFF]). reflexivity.
  - apply (Haction "06 05" [0x81; 0x01; 0x06; 0x05; 0xFF]). reflexivity.
  - intros speed Hspeed. split; [apply Hzoom; exact Hspeed |].
    unfold manual_focus.
    replace (7 <? Z.abs speed) with false by (symmetry; apply Z.ltb_ge; lia).
    destruct (speed =? 0); [| destruct (0 <? speed)];
      [apply (Haction _ _ (speed_digit_frame "8" 0 (Z.abs speed)
                             ltac:(right; reflexivity) ltac:(lia) ltac:(lia)))
      | apply (Haction _ _ (speed_digit_frame "8" 3 (Z.abs speed)
                              ltac:(right; reflexivity) ltac:(lia) ltac:(lia)))
      | apply (Haction _ _ (speed_digit_frame "8" 2 (Z.abs speed)
                              ltac:(right; reflexivity) ltac:(lia) ltac:(lia)))].
  - apply (Hzoom 0). lia.
  - intros position Hrange. unfold zoom_to.
    rewrite (finite_of_round (position * 16384) 0 0xFFFF) by lia.
    unfold zoom_to_int. cbv zeta.
    assert (Hword : 0 <= Py.round (position * 16384) < 65536) by lia.
    apply (Haction _ _ (zoom_to_frame _ Hword)).
  - intros mode Hname.
    destruct (known_mode_code _ Hname) as (code & frame & Hcode & Hframe).
    unfold set_focus_mode. rewrite Hcode. apply (Haction _ _ Hframe).
  - intros preset_num Hnum. split.
    + unfold save_preset.
      replace ((0 <=? preset_num) && (preset_num <=? 255)) with true
        by (symmetry; apply andb_true_iff; rewrite !Z.leb_le; lia).
      apply (Haction _ _ (preset_frame "1" preset_num ltac:(left; reflexivity) Hnum)).
    + unfold recall_preset.
      replace ((0 <=? preset_num) && (preset_num <=? 255)) with true
        by (symmetry; apply andb_true_iff; rewrite !Z.leb_le; lia).
      apply (Haction _ _ (preset_frame "2" preset_num ltac:(right; reflexivity) Hnum)).
  - intros [|].
    + apply (Haction "04 00 02" [0x81; 0x01; 0x04; 0x00; 0x02; 0xFF]). reflexivity.
    + apply (Haction "04 00 03" [0x81; 0x01; 0x04; 0x00; 0x03; 0xFF]). reflexivity.
Qed.

(** Switching the power on at a camera that never answers. *)
Lemma actions_accept_any_acknowledgement_witness :
  exists s', set_power true silent_camera = (Return tt, set_sock (Some s') silent_camera).
Proof.
  destruct (actions_accept_any_acknowledgement silent_camera
              (settimeout 2
                 {| sk_incoming := [RecvBlockingIOError; RecvTimeout]; sk_sent := [];
                    sk_send_raises := None; sk_close_raises := false;
                    sk_blocking := true; sk_timeout := None; sk_closed := false |}))
    as (_ & _ & _ & _ & _ & _ & _ & _ & _ & Hpower).
  - reflexivity.
  - reflexivity.
  - right. left. exists []. reflexivity.
  - apply (Hpower true).
Defined.

(** ** What the exchange returns *)

(** A reply that is no error reply comes back whole, first two bytes
    and terminator included, to an action command always, and to an
    inquiry when it has three bytes or fewer; only a longer reply to an
    inquiry is stripped. *)
Theorem short_or_action_reply_unstripped
    (self : TcpCamera) (s : socket) (command_hex : string) (query : bool)
    (frame reply : bytes) (rest : list recv_outcome) :
  _sock self = Some s ->
  sk_send_raises s = None ->
  command_bytes_of command_hex query = inr frame ->
  drain (sk_incoming s) = RecvData reply :: rest ->
  Forall (fun b => 0 <= b < 256) reply ->
  ~ error_shaped reply ->
  reply <> [] ->
  query = false \/ (length reply <= 3)%nat ->
  exists self', _send_command command_hex query self = (Return (Some reply), self').
Proof.
  intros Hsock Hsend Hframe Hdrain Hbytes Hshape Hne Hwhole.
  rewrite (_send_command_reply self s command_hex query frame Hsock Hsend Hframe
             reply rest Hdrain).
  destruct reply as [| b0 reply']; [contradiction |].
  destruct ((3 <=? Z.of_nat (length (b0 :: reply')))
            && match Py.index (b0 :: reply') 1 with
               | Some b => Z.land b 0xF0 =? 0x60
               | None => false
               end) eqn:Hcheck.
  { exfalso. apply Hshape. apply error_test_shaped; assumption. }
  replace (query && (3 <? Z.of_nat (length (b0 :: reply')))) with false.
  - eexists. reflexivity.
  - symmetry. apply andb_false_iff.
    destruct Hwhole as [-> | Hlen]; [left; reflexivity | right; apply Z.ltb_ge; lia].
Qed.

(** The acknowledgement and completion of the test suite, 90 41 FF 90
    51 FF, come back to [pantilt_home] as they are. *)
Lemma short_or_action_reply_unstripped_witness :
  exists self',
    _send_command "06 04" false (connected [0x90; 0x41; 0xFF; 0x90; 0x51; 0xFF])
    = (Return (Some [0x90; 0x41; 0xFF; 0x90; 0x51; 0xFF]), self').
Proof.
  apply (short_or_action_reply_unstripped
           (connected [0x90; 0x41; 0xFF; 0x90; 0x51; 0xFF])
           (settimeout 2 (mock_socket [0x90; 0x41; 0xFF; 0x90; 0x51; 0xFF]))
           "06 04" false [0x81; 0x01; 0x06; 0x04; 0xFF]
           [0x90; 0x41; 0xFF; 0x90; 0x51; 0xFF] []).
  - reflexivity.
  - reflexivity.
  - reflexivity.
  - reflexivity.
  - repeat (apply Forall_cons; split; [lia |]). apply Forall_nil. trivial.
  - intros [_ (b1 & Hb1 & Hnib)]. cbn in Hb1. injection Hb1 as <-. discriminate Hnib.
  - discriminate.
  - left. reflexivity.
Defined.

(** Bytes that are readable before the command goes out are dropped by
    the flush, the reply to this very command among them if it came
    early: when all the socket ever hands over is such bytes, the
    exchange sends the command and returns [None]. *)
Theorem early_reply_is_lost
    (self : TcpCamera) (s : socket) (command_hex : string) (query : bool)
    (frame : bytes) (early : list bytes) :
  _sock self = Some s ->
  sk_send_raises s = None ->
  command_bytes_of command_hex query = inr frame ->
  Forall (fun chunk : bytes => chunk <> []) early ->
  sk_incoming s = map RecvData early ->
  _send_command command_hex query self
  = (Return None, set_sock (Some (exchanged (_timeout self) frame [] s)) self).
Proof.
  intros Hsock Hsend Hframe Hearly Hincoming.
  apply (_send_command_timeout self s command_hex query frame Hsock Hsend Hframe []).
  left. split; [| reflexivity].
  rewrite Hincoming. apply drain_all_stale. exact Hearly.
Qed.

(** A zoom reply that is already there when the inquiry is made. *)
Lemma early_reply_is_lost_witness :
  let s := {| sk_incoming := [RecvData [0x90; 0x50; 0x01; 0x02; 0x03; 0x04; 0xFF]];
              sk_sent := []; sk_send_raises := None; sk_close_raises := false;
              sk_blocking := true; sk_timeout := Some 2%Q; sk_closed := false |} in
  _send_command "04 47" true (set_sock (Some s) cam0)
  = (Return None,
     set_sock (Some (exchanged 2 [0x81; 0x09; 0x04; 0x47; 0xFF] [] s)) (set_sock (Some s) cam0)).
Proof.
  intros s.
  apply (early_reply_is_lost (set_sock (Some s) cam0) s "04 47" true
           [0x81; 0x09; 0x04; 0x47; 0xFF] [[0x90; 0x50; 0x01; 0x02; 0x03; 0x04; 0xFF]]).
  - reflexivity.
  - reflexivity.
  - reflexivity.
  - apply Forall_cons. split; [discriminate | apply Forall_nil; trivial].
  - reflexivity.
Defined.



(** ** The exception of the camera *)

Lemma descriptions_unknown (code : Z) :
  code ∉ known_codes -> descriptions !! code = None.
Proof.
  intros Hcode. unfold descriptions, known_codes in *.
  rewrite !lookup_insert_ne by (intros <-; apply Hcode; set_solver).
  apply lookup_empty.
Qed.

(** [ViscaException] takes the third byte of a [bytes] argument as its
    status code.  A code it has no description for is described as
    'Unknown error code 0x' and the code in two hexadecimal digits.  An
    argument that is no [bytes], or has fewer than three, gives the
    status code -1 and the description 'Unknown error code 0x-1'. *)
Theorem visca_exception_codes :
  (forall (b : bytes) (code : Z),
      b !! 2%nat = Some code ->
      (forall description,
          descriptions !! code = Some description ->
          ViscaException_init (Bytes b) = ViscaException code description)
      /\ (0 <= code < 256 ->
          code ∉ known_codes ->
          ViscaException_init (Bytes b)
          = ViscaException code
              ("Unknown error code 0x"
               +:+ String (Py.hex_digit (code / 16))
                     (String (Py.hex_digit (code mod 16)) ""))))
  /\ (forall body,
        body = NotBytes \/ (exists b : bytes, body = Bytes b /\ (length b < 3)%nat) ->
        ViscaException_init body = ViscaException (-1) "Unknown error code 0x-1").
Proof.
  split.
  - intros b code Hcode.
    assert (Hlen : (2 < length b)%nat) by (apply lookup_lt_Some in Hcode; exact Hcode).
    assert (Hinit : ViscaException_init (Bytes b)
                    = ViscaException code
                        (default ("Unknown error code 0x" +:+ Py.format_02x code)
                                 (descriptions !! code))).
    { unfold ViscaException_init.
      replace (3 <=? Z.of_nat (length b)) with true by (symmetry; apply Z.leb_le; lia).
      rewrite index_nonneg by lia. change (Z.to_nat 2) with 2%nat.
      rewrite Hcode. reflexivity. }
    split.
    + intros description Hknown. rewrite Hinit, Hknown. reflexivity.
    + intros Hbyte Hunknown.
      rewrite Hinit, (descriptions_unknown _ Hunknown), (format_02x_byte _ Hbyte).
      reflexivity.
  - intros body [-> | (b & -> & Hlen)]; [reflexivity |].
    unfold ViscaException_init.
    replace (3 <=? Z.of_nat (length b)) with false by (symmetry; apply Z.leb_gt; lia).
    reflexivity.
Qed.

(** The error reply 90 60 0A FF, and the two-byte reply 90 60. *)
Lemma visca_exception_codes_witness :
  ViscaException_init (Bytes [0x90; 0x60; 0x0A; 0xFF])
  = ViscaException 0x0A "Unknown error code 0x0a"
  /\ ViscaException_init (Bytes [0x90; 0x60])
     = ViscaException (-1) "Unknown error code 0x-1".
Proof.
  destruct visca_exception_codes as [Hcode Hshort]. split.
  - destruct (Hcode [0x90; 0x60; 0x0A; 0xFF] 0x0A) as [_ Hunknown]; [reflexivity |].
    apply Hunknown; [lia |].
    unfold known_codes. intros Hin.
    repeat (apply elem_of_cons in Hin as [Heq | Hin]; [discriminate Heq |]).
    apply elem_of_nil in Hin. exact Hin.
  - apply Hshort. right. exists [0x90; 0x60]. split; [reflexivity | simpl; lia].
Defined.

(** ** The scope of a connection *)

(** A [with] block whose connection succeeds runs its body on the
    connected camera, closes the connection and gives back what the body
    returned.  One whose connection fails raises [ConnectionError]
    without running the body, and the camera is left as it was but for
    holding no socket. *)
Theorem with_runs_body_then_closes
    (A : Type) (body : M A) (self : TcpCamera) :
  (forall s a self1,
      body (set_sock (Some (settimeout (_timeout self) s)) self) = (Return a, self1) ->
      with_ (Accepts s) body self = (Return a, set_sock None self1))
  /\ (forall reason,
        exists msg,
          with_ (Refuses reason) body self
          = (Raise (ConnectionError msg), set_sock None self)).
Proof.
  split.
  - intros s a self1 Hbody.
    unfold with_, __enter__, __exit__, bind, ret. cbn [connect].
    rewrite Hbody. rewrite close_connection_returns. reflexivity.
  - intros reason. eexists. reflexivity.
Qed.

(** Reading the zoom position inside a [with] block. *)
Lemma with_runs_body_then_closes_witness :
  with_ (Accepts (mock_socket [0x90; 0x50; 0x01; 0x02; 0x03; 0x04; 0xFF]))
    get_zoom_position cam0
  = (Return 0x1234, cam0).
Proof.
  destruct (with_runs_body_then_closes Z get_zoom_position cam0) as [Hruns _].
  apply (Hruns (mock_socket [0x90; 0x50; 0x01; 0x02; 0x03; 0x04; 0xFF]) 0x1234
           (snd (get_zoom_position
                   (connected [0x90; 0x50; 0x01; 0x02; 0x03; 0x04; 0xFF])))).
  reflexivity.
Defined.
